(** * Form payment integration: checkout sessions and the Stripe webhook

    A shallow embedding of [src/server.js] (the Express application, lines
    1-217) and [src/api/webhook.js] (the platform-function variant of the
    webhook), together with the properties of the webhook ingestion and
    record-normalisation flow.

    - JavaScript values are a tagged union; an object is a finite map from
      property names to values (property order, which the code never
      observes, is not kept); a number is an IEEE-754 binary64 value with
      the operations of [SpecFloat].
    - A handler runs in a small monad that records the externally visible
      effects in order (console lines, calls to the payment provider, calls
      to the spreadsheet API) and ends by returning a response or by
      throwing, in which case no response is sent.
    - The Stripe SDK, the Google Sheets client, [JSON.parse], the clock and
      [process.env] are the fields of a [World]; every property is proved
      for all worlds. *)

From Stdlib Require Import ZArith QArith Floats.SpecFloat Lia.
From stdpp Require Import gmap strings list fin_maps pretty.

Local Open Scope Z_scope.
Local Open Scope string_scope.
Local Open Scope stdpp_scope.

(** ** JavaScript values *)

Local Unset Elimination Schemes.

Inductive JsValue : Type :=
| JUndefined
| JNull
| JBool (b : bool)
| JNum (x : spec_float)
| JStr (s : string)
| JArr (l : list JsValue)
| JObj (m : gmap string JsValue).

Local Set Elimination Schemes.

(** A thrown [Error]: its constructor name and its [message]. *)
Record JsError : Type := mkError { err_name : string; err_message : string }.

Definition TypeError (msg : string) : JsError := mkError "TypeError" msg.

(** ** Numbers: binary64 *)

Module Num.

Definition prec : Z := 53.
Definition emax : Z := 1024.

Definition of_Z (z : Z) : spec_float := binary_normalize prec emax z 0 false.

Definition div (x y : spec_float) : spec_float := SFdiv prec emax x y.

Definition is_zero (x : spec_float) : bool :=
  match x with S754_zero _ => true | _ => false end.

Definition is_nan (x : spec_float) : bool :=
  match x with S754_nan => true | _ => false end.

(** The rational denoted by a finite number. *)
Definition to_Q (x : spec_float) : option Q :=
  match x with
  | S754_zero _ => Some (0 # 1)%Q
  | S754_finite s m e =>
      let v := match e with
               | Zneg p => (Zpos m # Pos.pow 2 p)%Q
               | _ => inject_Z (Zpos m * 2 ^ e)
               end in
      Some (if s then Qopp v else v)
  | _ => None
  end.

(** [x] denotes the rational [n / d] exactly. *)
Definition exactly (x : spec_float) (n : Z) (d : positive) : Prop :=
  match to_Q x with
  | Some q => (q == n # d)%Q
  | None => False
  end.

(** [x] is a non-negative binary64 number within half a unit in the last
    place of [n / d]: either [+0] for [n = 0], or [m * 2^e] with a 53-bit
    mantissa [m] and [|m * 2^e - n / d| <= 2^e / 2], written without
    fractions as [2 * |d * m - n * 2^(-e)| <= d]. *)
Definition nearest (x : spec_float) (n : Z) (d : positive) : Prop :=
  match x with
  | S754_zero false => n = 0
  | S754_finite false m e =>
      2 ^ 52 <= Zpos m < 2 ^ 53 /\ e <= 0
      /\ 2 * Z.abs (Zpos d * Zpos m - n * 2 ^ (- e)) <= Zpos d
  | _ => False
  end.

(** The mantissa of the number 100, which is [D100 * 2^-46]. *)
Definition D100 : Z := 7036874417766400.

(** The round and sticky bits that encode a location. *)
Definition loc_r (l : location) : bool :=
  match l with loc_Inexact Eq | loc_Inexact Gt => true | _ => false end.

Definition loc_s (l : location) : bool :=
  match l with loc_Inexact Lt | loc_Inexact Gt => true | _ => false end.

End Num.

(** ** Effects and the handler monad *)

Inductive LogArg : Type :=
| LStr (s : string)
| LVal (v : JsValue)
| LErr (e : JsError).

Inductive Effect : Type :=
| ConsoleLog (args : list LogArg)
| ConsoleError (args : list LogArg)
| StripeSessionsCreate (params : JsValue)
| SheetsAppend (client_email private_key : JsValue) (request : JsValue).

(** A computation emits effects in order and then returns or throws. *)
Definition M (A : Type) : Type := list Effect * (JsError + A).

Definition ret {A} (a : A) : M A := ([], inr a).
Definition throw {A} (e : JsError) : M A := ([], inl e).
Definition emit (ev : Effect) : M unit := ([ev], inr tt).

Definition bind {A B} (m : M A) (k : A -> M B) : M B :=
  match m with
  | (tr, inl e) => (tr, inl e)
  | (tr, inr a) => let '(tr', r) := k a in ((tr ++ tr')%list, r)
  end.

(** [try m catch (err) h] *)
Definition try_catch {A} (m : M A) (h : JsError -> M A) : M A :=
  match m with
  | (tr, inl e) => let '(tr', r) := h e in ((tr ++ tr')%list, r)
  | (tr, inr a) => (tr, inr a)
  end.

(** An awaited external call: the promise resolves or rejects. *)
Definition await {A} (r : JsError + A) : M A := ([], r).

Notation "'let!' x := m 'in' k" := (bind m (fun x => k))
  (at level 10, x name, m at level 100, k at level 200).
Notation "m ;; k" := (bind m (fun _ => k))
  (at level 100, k at level 200, right associativity).

Definition trace {A} (m : M A) : list Effect := fst m.
Definition outcome {A} (m : M A) : JsError + A := snd m.

Definition console_log (args : list LogArg) : M unit := emit (ConsoleLog args).
Definition console_error (args : list LogArg) : M unit := emit (ConsoleError args).

(** ** Core language operations *)

(** ToBoolean. *)
Definition truthy (v : JsValue) : bool :=
  match v with
  | JUndefined | JNull => false
  | JBool b => b
  | JNum x => negb (Num.is_zero x || Num.is_nan x)
  | JStr s => negb (String.eqb s "")
  | JArr _ | JObj _ => true
  end.

(** [a || b] *)
Definition js_or (a b : JsValue) : JsValue := if truthy a then a else b.

(** [o[k]] on an object's own properties. *)
Definition prop (m : gmap string JsValue) (k : string) : JsValue :=
  default JUndefined (m !! k).

(** [v.k]: throws on [undefined] and [null].  Only used at the property
    names read by the source ([type], [data], [object], [metadata], ...),
    none of which exists on the prototypes of strings, numbers, booleans or
    arrays, so those yield [undefined]. *)
Definition getProp (v : JsValue) (k : string) : M JsValue :=
  match v with
  | JUndefined => throw (TypeError ("Cannot read properties of undefined (reading '" ++ k ++ "')"))
  | JNull => throw (TypeError ("Cannot read properties of null (reading '" ++ k ++ "')"))
  | JObj m => ret (prop m k)
  | _ => ret JUndefined
  end.

(** [x === 'literal'] *)
Definition strict_eq_str (v : JsValue) (s : string) : bool :=
  match v with
  | JStr t => String.eqb t s
  | _ => false
  end.

Fixpoint index_map_from (i : nat) (l : list JsValue) : gmap string JsValue :=
  match l with
  | [] => ∅
  | x :: l' => <[pretty i := x]> (index_map_from (S i) l')
  end.

Fixpoint chars_of (s : string) : list JsValue :=
  match s with
  | EmptyString => []
  | String c s' => JStr (String c EmptyString) :: chars_of s'
  end.

(** The own enumerable properties copied by object spread and by a rest
    pattern. *)
Definition ownProps (v : JsValue) : gmap string JsValue :=
  match v with
  | JObj m => m
  | JArr l => index_map_from 0 l
  | JStr s => index_map_from 0 (chars_of s)
  | _ => ∅
  end.

(** Object destructuring [const { ... } = v] starts by requiring [v] to be
    neither [undefined] nor [null]. *)
Definition requireObjectCoercible (v : JsValue) : M unit :=
  match v with
  | JUndefined => throw (TypeError "Cannot destructure 'undefined' as it is undefined.")
  | JNull => throw (TypeError "Cannot destructure 'null' as it is null.")
  | _ => ret tt
  end.

(** A destructured property [const { k } = v]. *)
Definition pick (v : JsValue) (k : string) : JsValue := prop (ownProps v) k.

(** [ToNumber] on the primitive values; strings, arrays and objects go
    through the engine's string-to-number and [ToPrimitive] conversions,
    which are taken as given ([toNumberOther]). *)
Definition ToNumber (toNumberOther : JsValue -> JsError + spec_float)
    (v : JsValue) : M spec_float :=
  match v with
  | JUndefined => ret S754_nan
  | JNull => ret (S754_zero false)
  | JBool true => ret (Num.of_Z 1)
  | JBool false => ret (S754_zero false)
  | JNum x => ret x
  | _ => await (toNumberOther v)
  end.

(** ** Requests, responses, environment *)

Inductive ResBody : Type :=
| Send (text : string)
| Json (v : JsValue)
| End (text : string).

Record Response : Type := mkResponse { status : Z; body : ResBody }.

(** [process.env]: each variable is a string or is unset. *)
Record Env : Type := mkEnv {
  STRIPE_WEBHOOK_SECRET : option string;
  GOOGLE_APPLICATION_CREDENTIALS_JSON : option string;
  SPREADSHEET_ID : option string
}.

Definition Buffer : Type := list Byte.byte.

(** What [req.body] holds when the Express webhook route runs: the raw
    bytes left by [express.raw], or the object already produced by the
    application-wide [express.json()] middleware. *)
Inductive Payload : Type :=
| RawBytes (b : Buffer)
| Parsed (v : JsValue).

(** [process.env.X || fallback] *)
Definition env_or (x : option string) (fallback : string) : string :=
  match x with
  | Some s => if String.eqb s "" then fallback else s
  | None => fallback
  end.

Definition env_value (x : option string) : JsValue :=
  match x with Some s => JStr s | None => JUndefined end.

Definition obj (l : list (string * JsValue)) : JsValue :=
  JObj (list_to_map l).

(** ** The service *)

(** The collaborators of a request: the Stripe SDK, the Google Sheets
    client, the engine's JSON parser, number conversion and clock, and the
    process environment. *)
Record World : Type := mkWorld {
  constructEvent : Payload -> option string -> option string -> JsError + JsValue;
  sessions_create : JsValue -> JsError + JsValue;
  values_append : JsValue -> JsValue -> JsValue -> JsError + JsValue;
  JSON_parse : string -> JsError + JsValue;
  toNumberOther : JsValue -> JsError + spec_float;
  (** [new Date().toISOString()] at processing time *)
  now : string;
  env : Env
}.

Section Service.

Variable W : World.

(** *** storeDataInGoogleSheets (server.js 142-202, api/webhook.js 24-84) *)

(** The positional row (server.js 169-186). *)
Definition row_values (formData : gmap string JsValue) : list JsValue :=
  [ prop formData "timestamp";
    prop formData "name";
    prop formData "email";
    prop formData "paymentStatus";
    prop formData "paymentId";
    prop formData "paymentAmount";
    js_or (prop formData "preferences") (JStr "");
    js_or (prop formData "notes") (JStr "");
    js_or (prop formData "age") (JStr "");
    js_or (prop formData "primaryConcern") (JStr "");
    js_or (prop formData "additionalConcerns") (JStr "");
    js_or (prop formData "goals") (JStr "");
    js_or (prop formData "photoCount") (JStr "") ].

Definition append_request (spreadsheetId values : JsValue) : JsValue :=
  obj [ ("spreadsheetId", spreadsheetId);
        ("range", JStr "Sheet1!A:M");
        ("valueInputOption", JStr "USER_ENTERED");
        ("resource", obj [("values", values)]) ].

Definition storeDataInGoogleSheets (formData : gmap string JsValue) : M JsValue :=
  try_catch
    (let! credentials := await (JSON_parse W (env_or (GOOGLE_APPLICATION_CREDENTIALS_JSON (env W)) "{}")) in
     let! client_email := getProp credentials "client_email" in
     if negb (truthy client_email) then
       console_error [LStr "Missing or invalid Google credentials"] ;; ret JUndefined
     else
     let! private_key := getProp credentials "private_key" in
     if negb (truthy private_key) then
       console_error [LStr "Missing or invalid Google credentials"] ;; ret JUndefined
     else
     let spreadsheetId := env_value (SPREADSHEET_ID (env W)) in
     if negb (truthy spreadsheetId) then
       console_error [LStr "Missing spreadsheet ID"] ;; ret JUndefined
     else
     let values := JArr [JArr (row_values formData)] in
     let request := append_request spreadsheetId values in
     emit (SheetsAppend client_email private_key request) ;;
     let! response := await (values_append W client_email private_key request) in
     let! data := getProp response "data" in
     console_log [LStr "Data stored in Google Sheets successfully"; LVal data] ;;
     ret data)
    (fun error =>
       console_error [LStr "Error storing data in Google Sheets:"; LErr error] ;;
       throw error).

(** *** The Normalized Record (server.js 102-119, api/webhook.js 113-130) *)

(** The fixed fields of the object literal, before the spread. *)
Definition fixed_fields (customerName customerEmail paymentId : JsValue)
    (paymentAmount : spec_float) : gmap string JsValue :=
  list_to_map
    [ ("name", customerName);
      ("email", customerEmail);
      ("paymentStatus", JStr "completed");
      ("paymentId", paymentId);
      ("paymentAmount", JNum paymentAmount);
      ("timestamp", JStr (now W)) ].

(** [{ ...fixed, ...formMetadata }]: a spread property overwrites an
    earlier property of the same name. *)
Definition spread_over (fixed formMetadata : gmap string JsValue)
    : gmap string JsValue :=
  formMetadata ∪ fixed.

(** The block that reads the session: it yields [customerEmail] and
    [formData]. *)
Definition normalize (session : JsValue) : M (JsValue * gmap string JsValue) :=
  let! metadata := getProp session "metadata" in
  requireObjectCoercible metadata ;;
  let customerName := pick metadata "customerName" in
  let formMetadata := delete "customerName" (ownProps metadata) in
  let! customer_details := getProp session "customer_details" in
  let! customerEmail := getProp customer_details "email" in
  let! payment_intent := getProp session "payment_intent" in
  let! amount_total := getProp session "amount_total" in
  let! amount := ToNumber (toNumberOther W) amount_total in
  let formData :=
    spread_over
      (fixed_fields customerName customerEmail payment_intent
         (Num.div amount (Num.of_Z 100)))
      formMetadata in
  ret (customerEmail, formData).

(** *** The webhook (server.js 81-139, api/webhook.js 86-146) *)

Definition acknowledged : Response :=
  mkResponse 200 (Json (obj [("received", JBool true)])).

Definition rejected (err : JsError) : Response :=
  mkResponse 400 (Send ("Webhook Error: " ++ err_message err)).

(** The guarded sink call (server.js 123-134). *)
Definition persist (formData : gmap string JsValue) : M unit :=
  try_catch
    (storeDataInGoogleSheets formData ;;
     console_log [LStr "Payment data successfully processed"])
    (fun error =>
       console_error [LStr "Error processing payment data:"; LErr error]).

(** Everything after the signature check (server.js 100-138). *)
Definition process_event (event : JsValue) : M Response :=
  let! type := getProp event "type" in
  (if strict_eq_str type "checkout.session.completed" then
     let! data := getProp event "data" in
     let! session := getProp data "object" in
     let! r := normalize session in
     let '(customerEmail, formData) := r in
     console_log [LStr "Processing completed payment for:"; LVal customerEmail] ;;
     persist formData
   else ret tt) ;;
  ret acknowledged.

(** The verification block (server.js 87-98): either the verified event or
    the response that ends the request. *)
Definition verify (payload : Payload) (sig : option string) : M (Response + JsValue) :=
  try_catch
    (let! event := await (constructEvent W payload sig (STRIPE_WEBHOOK_SECRET (env W))) in
     let! type := getProp event "type" in
     console_log [LStr "Webhook received:"; LVal type] ;;
     ret (inr event))
    (fun err =>
       console_error [LStr "Webhook signature verification failed:"; LStr (err_message err)] ;;
       ret (inl (rejected err))).

(** [app.post('/webhook', ...)] of server.js. *)
Definition server_webhook (payload : Payload) (sig : option string) : M Response :=
  let! v := verify payload sig in
  match v with
  | inl response => ret response
  | inr event => process_event event
  end.

(** *** The platform-function webhook (api/webhook.js) *)

Inductive Chunk : Type :=
| ChunkString (s : string)
| ChunkBuffer (b : Buffer).

Record Request : Type := mkRequest {
  method : string;
  stripe_signature : option string;
  chunks : list Chunk
}.

(** [getRawBody] (api/webhook.js 13-21): [Buffer.concat] of the chunks, a
    string chunk going through [Buffer.from]. *)
Fixpoint getRawBody (cs : list Chunk) : Buffer :=
  match cs with
  | [] => []
  | ChunkString s :: cs' => (String.list_byte_of_string s ++ getRawBody cs')%list
  | ChunkBuffer b :: cs' => (b ++ getRawBody cs')%list
  end.

Definition handler (req : Request) : M Response :=
  if negb (String.eqb (method req) "POST") then
    ret (mkResponse 405 (End "Method Not Allowed"))
  else
    let rawBody := getRawBody (chunks req) in
    let! v := verify (RawBytes rawBody) (stripe_signature req) in
    match v with
    | inl response => ret response
    | inr event => process_event event
    end.

(** *** Session creation (server.js 27-78) *)

Definition missing_fields : Response :=
  mkResponse 400
    (Json (obj [("error",
      JStr "Missing required fields. Please provide productName, productPrice, and customerEmail.")])).

Definition session_params (productName productPrice customerName customerEmail metadata : JsValue)
    : JsValue :=
  obj [ ("payment_method_types", JArr [JStr "card"]);
        ("line_items",
         JArr [ obj [ ("price_data",
                       obj [ ("currency", JStr "usd");
                             ("product_data", obj [("name", productName)]);
                             ("unit_amount", productPrice) ]);
                      ("quantity", JNum (Num.of_Z 1)) ] ]);
        ("mode", JStr "payment");
        ("success_url", JStr "https://your-framer-site.com/success");
        ("cancel_url", JStr "https://your-framer-site.com/cancel");
        ("customer_email", customerEmail);
        ("metadata", JObj (ownProps metadata ∪ {["customerName" := customerName]})) ].

Definition create_checkout_session (reqBody : JsValue) : M Response :=
  try_catch
    (console_log [LStr "Received checkout request:"; LVal reqBody] ;;
     requireObjectCoercible reqBody ;;
     let productName := pick reqBody "productName" in
     let productPrice := pick reqBody "productPrice" in
     let customerName := pick reqBody "customerName" in
     let customerEmail := pick reqBody "customerEmail" in
     let metadata := pick reqBody "metadata" in
     if negb (truthy productName) || negb (truthy productPrice)
        || negb (truthy customerEmail)
     then ret missing_fields
     else
       let params := session_params productName productPrice customerName
                       customerEmail metadata in
       emit (StripeSessionsCreate params) ;;
       let! session := await (sessions_create W params) in
       let! id := getProp session "id" in
       console_log [LStr "Checkout session created:"; LVal id] ;;
       let! url := getProp session "url" in
       ret (mkResponse 200 (Json (obj [("checkoutUrl", url)]))))
    (fun error =>
       console_error [LStr "Error creating checkout session:"; LErr error] ;;
       ret (mkResponse 500 (Json (obj [("error", JStr (err_message error))])))).

End Service.

(** ** Observations on a trace *)

Definition is_sink_call (ev : Effect) : bool :=
  match ev with SheetsAppend _ _ _ => true | _ => false end.

Definition is_provider_call (ev : Effect) : bool :=
  match ev with StripeSessionsCreate _ => true | _ => false end.

Definition is_error_log (ev : Effect) : bool :=
  match ev with ConsoleError _ => true | _ => false end.

Fixpoint count (p : Effect -> bool) (tr : list Effect) : nat :=
  match tr with
  | [] => 0%nat
  | ev :: tr' => ((if p ev then 1 else 0) + count p tr')%nat
  end.

(** The number of rows the spreadsheet API was asked to append. *)
Definition sink_calls (tr : list Effect) : nat := count is_sink_call tr.

(** The number of calls to the payment provider. *)
Definition provider_calls (tr : list Effect) : nat := count is_provider_call tr.

(** The number of [console.error] lines. *)
Definition error_logs (tr : list Effect) : nat := count is_error_log tr.

(** The verified event of a delivery, when the SDK accepts it. *)
Definition verification (W : World) (payload : Payload) (sig : option string)
    : JsError + JsValue :=
  constructEvent W payload sig (STRIPE_WEBHOOK_SECRET (env W)).

(** The delivery the platform function hands to the SDK. *)
Definition handler_verification (W : World) (req : Request) : JsError + JsValue :=
  verification W (RawBytes (getRawBody (chunks req))) (stripe_signature req).

(** The six fixed fields of the record. *)
Definition fixed_names : list string :=
  ["name"; "email"; "paymentStatus"; "paymentId"; "paymentAmount"; "timestamp"].

(** The seven additional columns of the row. *)
Definition extra_names : list string :=
  ["preferences"; "notes"; "age"; "primaryConcern"; "additionalConcerns";
   "goals"; "photoCount"].

(** A computation without effects. *)
Definition silent {A} (m : M A) : Prop := trace m = [].

(** The discriminator the webhook acts upon. *)
Definition completed_type : string := "checkout.session.completed".

(** The record the normalisation block builds from the values it read:
    the metadata value, the e-mail, the payment intent and the amount. *)
Definition record_of (W : World) (metadata customerEmail payment_intent : JsValue)
    (amount : spec_float) : gmap string JsValue :=
  spread_over
    (fixed_fields W (pick metadata "customerName") customerEmail payment_intent
       (Num.div amount (Num.of_Z 100)))
    (delete "customerName" (ownProps metadata)).

(** The three required fields of a session-creation request. *)
Definition required_names : list string :=
  ["productName"; "productPrice"; "customerEmail"].

(** The parameters the route sends to the provider for a request body. *)
Definition params_of (reqBody : JsValue) : JsValue :=
  session_params (pick reqBody "productName") (pick reqBody "productPrice")
    (pick reqBody "customerName") (pick reqBody "customerEmail")
    (pick reqBody "metadata").

(** The names of the six leading columns, in column order. *)
Definition leading_names : list string :=
  ["timestamp"; "name"; "email"; "paymentStatus"; "paymentId"; "paymentAmount"].

(** ** Sample deliveries *)

Module Sample.

Definition bad_signature : JsError :=
  mkError "StripeSignatureVerificationError"
    "No signatures found matching the expected signature for payload.".

Definition completed (session : JsValue) : JsValue :=
  obj [ ("type", JStr "checkout.session.completed");
        ("data", obj [("object", session)]) ].

Definition session (metadata customer_details : JsValue) (amount_total : Z) : JsValue :=
  obj [ ("metadata", metadata);
        ("customer_details", customer_details);
        ("payment_intent", JStr "pi_1");
        ("amount_total", JNum (Num.of_Z amount_total)) ].

(** The end-to-end scenario: Ann pays 50.00. *)
Definition ann : JsValue :=
  session (obj [("customerName", JStr "Ann"); ("notes", JStr "vip")])
          (obj [("email", JStr "ann@x.com")]) 5000.

Definition credentials : JsValue :=
  obj [("client_email", JStr "svc@project.iam"); ("private_key", JStr "KEY")].

Definition checkout_session : JsValue :=
  obj [("id", JStr "cs_1"); ("url", JStr "https://checkout.stripe.com/c/pay/cs_1")].

(** A world whose SDK accepts exactly the signature ["t=1,v1=ok"] and then
    yields [event]; the provider and the sheet answer as given. *)
Definition world (event : JsValue) (created appended : JsError + JsValue) : World :=
  {| constructEvent := fun _ sig _ =>
       match sig with
       | Some s => if String.eqb s "t=1,v1=ok" then inr event else inl bad_signature
       | None => inl bad_signature
       end;
     sessions_create := fun _ => created;
     values_append := fun _ _ _ => appended;
     JSON_parse := fun _ => inr credentials;
     toNumberOther := fun _ => inr S754_nan;
     now := "2024-05-01T12:00:00.000Z";
     env := mkEnv (Some "whsec_1") (Some "{}") (Some "sheet_1") |}.

Definition appended_ok : JsError + JsValue := inr (obj [("data", obj [("updatedRows", JNum (Num.of_Z 1))])]).
Definition append_fails : JsError + JsValue := inl (mkError "Error" "The caller does not have permission").
Definition created_ok : JsError + JsValue := inr checkout_session.
Definition create_fails : JsError + JsValue := inl (mkError "StripeInvalidRequestError" "Invalid integer: abc").

Definition good_sig : option string := Some "t=1,v1=ok".
Definition forged_sig : option string := Some "t=1,v1=forged".

Definition post (sig : option string) : Request :=
  mkRequest "POST" sig [ChunkString "{}"].

(** *** Sessions whose metadata reuses a fixed field *)

(** Metadata that reuses the name of a fixed field. *)
Definition renamed_metadata : gmap string JsValue :=
  list_to_map [("customerName", JStr "Ann"); ("name", JStr "Bob")].

Definition renamed : JsValue :=
  session (JObj renamed_metadata) (obj [("email", JStr "ann@x.com")]) 5000.

Definition own_email_metadata : gmap string JsValue :=
  list_to_map [("customerName", JStr "Ann"); ("email", JStr "billing@x.com")].

Definition own_email : JsValue :=
  session (JObj own_email_metadata) (obj [("email", JStr "ann@x.com")]) 5000.

Definition ann_metadata : gmap string JsValue :=
  list_to_map [("customerName", JStr "Ann"); ("notes", JStr "vip")].

Definition W : World :=
  world (completed ann) created_ok appended_ok.

(** *** Session-creation requests *)

Definition order (price : JsValue) : JsValue :=
  obj [ ("productName", JStr "Consultation");
        ("productPrice", price);
        ("customerName", JStr "Ann");
        ("customerEmail", JStr "ann@x.com");
        ("metadata", obj [("notes", JStr "vip")]) ].

Definition paid_order : JsValue := order (JNum (Num.of_Z 2999)).
Definition free_order : JsValue := order (JNum (Num.of_Z 0)).

Definition order_without_email : JsValue :=
  obj [ ("productName", JStr "Consultation");
        ("productPrice", JNum (Num.of_Z 2999)) ].

Definition W_provider_down : World :=
  world (completed ann) create_fails appended_ok.

(** *** A record with a field the sheet has no column for *)

Definition record_with_company : gmap string JsValue :=
  list_to_map
    [ ("name", JStr "Ann"); ("email", JStr "ann@x.com");
      ("paymentStatus", JStr "completed"); ("paymentId", JStr "pi_1");
      ("paymentAmount", JNum (Num.of_Z 50));
      ("timestamp", JStr "2024-05-01T12:00:00.000Z");
      ("notes", JStr "vip"); ("company", JStr "Acme") ].

Definition row_with_company : list JsValue :=
  [ JStr "2024-05-01T12:00:00.000Z"; JStr "Ann"; JStr "ann@x.com";
    JStr "completed"; JStr "pi_1"; JNum (Num.of_Z 50);
    JStr ""; JStr "vip"; JStr ""; JStr ""; JStr ""; JStr ""; JStr "" ].

(** *** Incomplete customer details, failing sheet *)

(** [customer_details: null]: the field is nullable in the provider's
    session object. *)
Definition session_null_details : JsValue :=
  session (obj [("customerName", JStr "Ann")]) JNull 5000.

(** Customer details without an e-mail. *)
Definition session_without_email : JsValue :=
  session (obj [("customerName", JStr "Ann")]) (obj []) 5000.

Definition W_null_details : World :=
  world (completed session_null_details) created_ok appended_ok.

Definition W_no_email : World :=
  world (completed session_without_email) created_ok appended_ok.

(** Ann's delivery when the sheet refuses the write. *)
Definition W_sheet_down : World :=
  world (completed ann) created_ok append_fails.

Definition payload : Payload := RawBytes (getRawBody [ChunkString "{}"]).

(** *** Amounts *)

(** 29.99 in minor units. *)
Definition cents_2999 : JsValue :=
  session (obj [("customerName", JStr "Ann")]) (obj [("email", JStr "ann@x.com")]) 2999.

(** Metadata that carries its own [paymentAmount]. *)
Definition own_amount_metadata : gmap string JsValue :=
  list_to_map [("customerName", JStr "Ann"); ("paymentAmount", JStr "free")].

Definition own_amount : JsValue :=
  session (JObj own_amount_metadata) (obj [("email", JStr "ann@x.com")]) 5000.

End Sample.

(** ** Further observations *)

(** [undefined] or [null]. *)
Definition nullish (v : JsValue) : bool :=
  match v with JUndefined | JNull => true | _ => false end.

(** An own property of an object value. *)
Definition field (v : JsValue) (k : string) : option JsValue :=
  match v with JObj m => m !! k | _ => None end.

(** The text handed to [JSON.parse] by the sink (server.js 145). *)
Definition credentials_source (W : World) : string :=
  env_or (GOOGLE_APPLICATION_CREDENTIALS_JSON (env W)) "{}".

(** The sink has what it needs to reach the sheet: credentials that parse
    to an object with a truthy [client_email] and [private_key], and a
    non-empty [SPREADSHEET_ID]. *)
Definition sink_configured (W : World) (c : gmap string JsValue) : Prop :=
  JSON_parse W (credentials_source W) = inr (JObj c)
  /\ truthy (prop c "client_email") = true
  /\ truthy (prop c "private_key") = true
  /\ truthy (env_value (SPREADSHEET_ID (env W))) = true.

(** The request the sink sends for a record. *)
Definition sink_request (W : World) (formData : gmap string JsValue) : JsValue :=
  append_request (env_value (SPREADSHEET_ID (env W)))
    (JArr [JArr (row_values formData)]).

(** The line that closes the guarded sink call: success or the error. *)
Definition closing_line (r : JsError + JsValue) : Effect :=
  match r with
  | inl error => ConsoleError [LStr "Error processing payment data:"; LErr error]
  | inr _ => ConsoleLog [LStr "Payment data successfully processed"]
  end.

(** The part of the payload's bytes one chunk contributes
    (api/webhook.js 17). *)
Definition chunk_bytes (c : Chunk) : Buffer :=
  match c with
  | ChunkString s => String.list_byte_of_string s
  | ChunkBuffer b => b
  end.

(** ** The tutorial copy (server.js 304-346, 413-424) *)

(** The row of the second [storeDataInGoogleSheets] (server.js 413-424). *)
Definition tutorial_row_values (formData : gmap string JsValue) : list JsValue :=
  [ prop formData "timestamp";
    prop formData "name";
    prop formData "email";
    prop formData "paymentStatus";
    prop formData "paymentId";
    prop formData "paymentAmount";
    js_or (prop formData "preferences") (JStr "");
    js_or (prop formData "notes") (JStr "") ].

(** The second [/create-checkout-session] route (server.js 304-346): the
    same call to the provider, without the check of the required fields
    and without the two [console.log] lines. *)
Definition tutorial_create_checkout_session (W : World) (reqBody : JsValue)
    : M Response :=
  try_catch
    (requireObjectCoercible reqBody ;;
     let productName := pick reqBody "productName" in
     let productPrice := pick reqBody "productPrice" in
     let customerName := pick reqBody "customerName" in
     let customerEmail := pick reqBody "customerEmail" in
     let metadata := pick reqBody "metadata" in
     let params := session_params productName productPrice customerName
                     customerEmail metadata in
     emit (StripeSessionsCreate params) ;;
     let! session := await (sessions_create W params) in
     let! url := getProp session "url" in
     ret (mkResponse 200 (Json (obj [("checkoutUrl", url)]))))
    (fun error =>
       console_error [LStr "Error creating checkout session:"; LErr error] ;;
       ret (mkResponse 500 (Json (obj [("error", JStr (err_message error))])))).

(** ** Further sample worlds *)

Module Fixture.

(** A verified event of another kind. *)
Definition intent_created : JsValue :=
  obj [ ("type", JStr "payment_intent.created");
        ("data", obj [("object", obj [("id", JStr "pi_1")])]) ].

Definition W_other_kind : World :=
  Sample.world intent_created Sample.created_ok Sample.appended_ok.

(** A signed payload that is the JSON text [null]. *)
Definition W_null_event : World :=
  Sample.world JNull Sample.created_ok Sample.appended_ok.

(** A completed checkout whose session has no metadata. *)
Definition session_without_metadata : gmap string JsValue :=
  list_to_map [ ("customer_details", obj [("email", JStr "ann@x.com")]);
                ("payment_intent", JStr "pi_1");
                ("amount_total", JNum (Num.of_Z 5000)) ].

Definition W_without_metadata : World :=
  Sample.world (Sample.completed (JObj session_without_metadata))
    Sample.created_ok Sample.appended_ok.

(** A completed checkout whose session has no amount. *)
Definition session_without_amount : gmap string JsValue :=
  list_to_map [ ("metadata", JObj Sample.ann_metadata);
                ("customer_details", obj [("email", JStr "ann@x.com")]);
                ("payment_intent", JStr "pi_1") ].

(** Ann's session and event, as maps. *)
Definition ann_session : gmap string JsValue :=
  list_to_map [ ("metadata", obj [("customerName", JStr "Ann"); ("notes", JStr "vip")]);
                ("customer_details", obj [("email", JStr "ann@x.com")]);
                ("payment_intent", JStr "pi_1");
                ("amount_total", JNum (Num.of_Z 5000)) ].

Definition ann_data : gmap string JsValue :=
  list_to_map [("object", Sample.ann)].

Definition ann_event : gmap string JsValue :=
  list_to_map [ ("type", JStr "checkout.session.completed");
                ("data", obj [("object", Sample.ann)]) ].

Definition credentials : gmap string JsValue :=
  list_to_map [("client_email", JStr "svc@project.iam"); ("private_key", JStr "KEY")].

(** A world given by its JSON parser, its sheet and its environment. *)
Definition world_of (parse : string -> JsError + JsValue)
    (appended : JsError + JsValue) (e : Env) : World :=
  {| constructEvent := constructEvent Sample.W;
     sessions_create := sessions_create Sample.W;
     values_append := fun _ _ _ => appended;
     JSON_parse := parse;
     toNumberOther := toNumberOther Sample.W;
     now := now Sample.W;
     env := e |}.

(** No credentials in the environment: [JSON.parse('{}')]. *)
Definition W_no_credentials : World :=
  world_of (fun s => if String.eqb s "{}" then inr (obj []) else inr Sample.credentials)
    Sample.appended_ok (mkEnv (Some "whsec_1") None (Some "sheet_1")).

(** Credentials, but no spreadsheet id. *)
Definition W_no_sheet : World :=
  world_of (fun _ => inr Sample.credentials) Sample.appended_ok
    (mkEnv (Some "whsec_1") (Some "{...}") None).

(** Credentials that are not JSON. *)
Definition not_json : JsError :=
  mkError "SyntaxError" "Unexpected token o in JSON at position 1".

Definition W_bad_credentials : World :=
  world_of (fun _ => inl not_json) Sample.appended_ok
    (mkEnv (Some "whsec_1") (Some "not json") (Some "sheet_1")).

Definition permission_denied : JsError :=
  mkError "Error" "The caller does not have permission".

(** A request whose metadata is echoed by the provider. *)
Definition form_metadata : gmap string JsValue :=
  list_to_map [("notes", JStr "vip"); ("goals", JStr "sleep")].

Definition form_request : JsValue :=
  obj [ ("productName", JStr "Consultation");
        ("productPrice", JNum (Num.of_Z 2999));
        ("customerName", JStr "Ann");
        ("customerEmail", JStr "ann@x.com");
        ("metadata", JObj form_metadata) ].

End Fixture.

(** The session lets the normalisation block read what it dereferences:
    it is an object whose [metadata] and [customer_details] are neither
    [undefined] nor [null]. *)
Definition session_readable (session : JsValue) : bool :=
  match session with
  | JObj s => negb (nullish (prop s "metadata"))
              && negb (nullish (prop s "customer_details"))
  | _ => false
  end.

(** ** The handler monad: equations *)

Lemma bind_ret {A B} (a : A) (k : A -> M B) : bind (ret a) k = k a.
Proof. unfold bind, ret. destruct (k a) as [tr r]. reflexivity. Qed.

Lemma bind_await_ok {A B} (a : A) (k : A -> M B) : bind (await (inr a)) k = k a.
Proof. apply bind_ret. Qed.

Lemma trace_bind {A B} (m : M A) (k : A -> M B) :
  trace (bind m k) =
  (trace m ++ match outcome m with inr a => trace (k a) | inl _ => [] end)%list.
Proof.
  destruct m as [tr [e | a]]; simpl.
  - symmetry. apply app_nil_r.
  - destruct (k a) as [tr' r]. reflexivity.
Qed.

Lemma outcome_bind {A B} (m : M A) (k : A -> M B) :
  outcome (bind m k) =
  match outcome m with inr a => outcome (k a) | inl e => inl e end.
Proof.
  destruct m as [tr [e | a]]; simpl; [reflexivity |].
  destruct (k a) as [tr' r]. reflexivity.
Qed.

Lemma trace_try_catch {A} (m : M A) (h : JsError -> M A) :
  trace (try_catch m h) =
  (trace m ++ match outcome m with inl e => trace (h e) | inr _ => [] end)%list.
Proof.
  destruct m as [tr [e | a]]; simpl.
  - destruct (h e) as [tr' r]. reflexivity.
  - symmetry. apply app_nil_r.
Qed.

Lemma outcome_try_catch {A} (m : M A) (h : JsError -> M A) :
  outcome (try_catch m h) =
  match outcome m with inl e => outcome (h e) | inr a => inr a end.
Proof.
  destruct m as [tr [e | a]]; simpl; [| reflexivity].
  destruct (h e) as [tr' r]. reflexivity.
Qed.

Lemma count_app (p : Effect -> bool) (l1 l2 : list Effect) :
  count p (l1 ++ l2) = (count p l1 + count p l2)%nat.
Proof. induction l1 as [| ev l1 IH]; simpl; [reflexivity | rewrite IH; lia]. Qed.

Lemma M_eta {A} (m : M A) : m = (trace m, outcome m).
Proof. destruct m; reflexivity. Qed.

(** ** Verification *)

Lemma verify_rejects (W : World) payload sig err :
  verification W payload sig = inl err ->
  verify W payload sig =
  ([ConsoleError [LStr "Webhook signature verification failed:"; LStr (err_message err)]],
   inr (inl (rejected err))).
Proof. unfold verification, verify. intros ->. reflexivity. Qed.

Lemma verify_accepts (W : World) payload sig (ev : gmap string JsValue) :
  verification W payload sig = inr (JObj ev) ->
  verify W payload sig =
  ([ConsoleLog [LStr "Webhook received:"; LVal (prop ev "type")]], inr (inr (JObj ev))).
Proof. unfold verification, verify. intros ->. reflexivity. Qed.

Lemma strict_eq_str_true (v : JsValue) (s : string) :
  strict_eq_str v s = true <-> v = JStr s.
Proof.
  destruct v; simpl; try (split; [discriminate | congruence]).
  rewrite String.eqb_eq. split; congruence.
Qed.

Lemma prop_eq_str (m : gmap string JsValue) (k s : string) :
  prop m k = JStr s <-> m !! k = Some (JStr s).
Proof.
  unfold prop. destruct (m !! k) as [v |]; simpl; split; congruence.
Qed.

Lemma prop_lookup (m : gmap string JsValue) (k : string) (v : JsValue) :
  m !! k = Some v -> prop m k = v.
Proof. unfold prop. intros ->. reflexivity. Qed.

Lemma prop_absent (m : gmap string JsValue) (k : string) :
  m !! k = None -> prop m k = JUndefined.
Proof. unfold prop. intros ->. reflexivity. Qed.

(** A delivery whose verification fails leaves [process_event] unreached. *)
Lemma server_webhook_rejects (W : World) payload sig err :
  verification W payload sig = inl err ->
  server_webhook W payload sig =
  ([ConsoleError [LStr "Webhook signature verification failed:"; LStr (err_message err)]],
   inr (rejected err)).
Proof.
  intros H. unfold server_webhook. rewrite (verify_rejects _ _ _ _ H). reflexivity.
Qed.

Lemma server_webhook_accepts (W : World) payload sig (ev : gmap string JsValue) :
  verification W payload sig = inr (JObj ev) ->
  server_webhook W payload sig =
  bind (console_log [LStr "Webhook received:"; LVal (prop ev "type")])
       (fun _ => process_event W (JObj ev)).
Proof.
  intros H. unfold server_webhook. rewrite (verify_accepts _ _ _ _ H).
  unfold bind, console_log, emit.
  destruct (process_event W (JObj ev)) as [tr r]. reflexivity.
Qed.

(** On a POST the platform function is the Express route applied to the
    concatenated chunks. *)
Lemma handler_post (W : World) (req : Request) :
  method req = "POST" ->
  handler W req =
  server_webhook W (RawBytes (getRawBody (chunks req))) (stripe_signature req).
Proof. intros H. unfold handler, server_webhook. rewrite H. reflexivity. Qed.

Lemma handler_not_post (W : World) (req : Request) :
  method req <> "POST" ->
  handler W req = ([], inr (mkResponse 405 (End "Method Not Allowed"))).
Proof.
  intros H. unfold handler.
  destruct (String.eqb (method req) "POST") eqn:E; [| reflexivity].
  apply String.eqb_eq in E. contradiction.
Qed.

(** ** Rejected deliveries *)

(** C1. A webhook delivery whose signature verification fails is answered
    with status 400 and the text [Webhook Error: <message>]; the only
    effect of the request is the [console.error] line, so the payload is
    not processed any further.  This holds for the Express route and, on a
    POST, for the platform function. *)
Theorem failed_verification_is_rejected (W : World) payload sig err :
  verification W payload sig = inl err ->
  let rejection : M Response :=
    ([ConsoleError [LStr "Webhook signature verification failed:";
                    LStr (err_message err)]],
     inr (mkResponse 400 (Send ("Webhook Error: " ++ err_message err)))) in
  server_webhook W payload sig = rejection
  /\ sink_calls (trace (server_webhook W payload sig)) = 0%nat
  /\ forall req : Request,
       method req = "POST" ->
       RawBytes (getRawBody (chunks req)) = payload ->
       stripe_signature req = sig ->
       handler W req = rejection.
Proof.
  intros H rejection. rewrite (server_webhook_rejects _ _ _ _ H).
  repeat split.
  intros req Hm <- <-. rewrite (handler_post _ _ Hm).
  apply server_webhook_rejects. exact H.
Qed.

Lemma failed_verification_is_rejected_witness :
  let rejection : M Response :=
    ([ConsoleError [LStr "Webhook signature verification failed:";
                    LStr (err_message Sample.bad_signature)]],
     inr (mkResponse 400 (Send ("Webhook Error: " ++ err_message Sample.bad_signature)))) in
  server_webhook Sample.W Sample.payload Sample.forged_sig = rejection
  /\ handler Sample.W (Sample.post Sample.forged_sig) = rejection.
Proof.
  intros rejection.
  destruct (failed_verification_is_rejected Sample.W Sample.payload Sample.forged_sig
              Sample.bad_signature) as (H1 & _ & H3).
  - reflexivity.
  - split; [exact H1 |].
    apply (H3 (Sample.post Sample.forged_sig)); reflexivity.
Defined.

(** ** The sink *)

Lemma getProp_trace (v : JsValue) (k : string) : trace (getProp v k) = [].
Proof. destruct v; reflexivity. Qed.

(** The sink performs at most one append, and the request it sends is the
    configured destination with the single row [row_values formData]. *)
Lemma store_trace_cases (W : World) (fd : gmap string JsValue) :
  sink_calls (trace (storeDataInGoogleSheets W fd)) = 0%nat \/
  exists client_email private_key tr,
    trace (storeDataInGoogleSheets W fd) =
      SheetsAppend client_email private_key
        (append_request (env_value (SPREADSHEET_ID (env W)))
           (JArr [JArr (row_values fd)])) :: tr
    /\ sink_calls tr = 0%nat.
Proof.
  unfold storeDataInGoogleSheets.
  destruct (JSON_parse W _) as [e | credentials]; [left; reflexivity |].
  destruct credentials as [| | b | x | s | l | c]; try (left; reflexivity).
  rewrite bind_await_ok. cbn [getProp]. rewrite bind_ret.
  destruct (truthy (prop c "client_email")); [| left; reflexivity].
  cbn [negb]. rewrite bind_ret.
  destruct (truthy (prop c "private_key")); [| left; reflexivity].
  cbn [negb].
  destruct (truthy (env_value (SPREADSHEET_ID (env W)))); [| left; reflexivity].
  cbn [negb]. right.
  exists (prop c "client_email"), (prop c "private_key").
  destruct (values_append W _ _ _) as [e | response].
  - eexists. split; [reflexivity | reflexivity].
  - destruct response; eexists; (split; [reflexivity | reflexivity]).
Qed.

Lemma store_sink_calls_le (W : World) (fd : gmap string JsValue) :
  (sink_calls (trace (storeDataInGoogleSheets W fd)) <= 1)%nat.
Proof.
  destruct (store_trace_cases W fd) as [H | (ce & pk & tr & H & Htr)].
  - rewrite H. lia.
  - rewrite H. unfold sink_calls in *. simpl. rewrite Htr. lia.
Qed.

(** The guarded sink call never throws: a sink failure is logged and
    swallowed. *)
Lemma persist_outcome (W : World) (fd : gmap string JsValue) :
  outcome (persist W fd) = inr tt.
Proof.
  unfold persist. rewrite outcome_try_catch, outcome_bind.
  destruct (outcome (storeDataInGoogleSheets W fd)) as [e | v]; reflexivity.
Qed.

Lemma persist_sink_calls (W : World) (fd : gmap string JsValue) :
  sink_calls (trace (persist W fd)) =
  sink_calls (trace (storeDataInGoogleSheets W fd)).
Proof.
  unfold persist. rewrite trace_try_catch, outcome_bind, trace_bind.
  unfold sink_calls. rewrite !count_app.
  destruct (outcome (storeDataInGoogleSheets W fd)) as [e | v]; simpl; lia.
Qed.

(** ** Normalisation *)

Lemma silent_bind {A B} (m : M A) (k : A -> M B) :
  silent m -> (forall a, silent (k a)) -> silent (bind m k).
Proof.
  unfold silent. intros Hm Hk. rewrite trace_bind, Hm.
  destruct (outcome m); [reflexivity | apply Hk].
Qed.

Lemma silent_getProp (v : JsValue) (k : string) : silent (getProp v k).
Proof. apply getProp_trace. Qed.

Lemma silent_requireObjectCoercible (v : JsValue) : silent (requireObjectCoercible v).
Proof. destruct v; reflexivity. Qed.

Lemma silent_ToNumber f (v : JsValue) : silent (ToNumber f v).
Proof. destruct v as [| | [|] | | | |]; reflexivity. Qed.

Lemma silent_ret {A} (a : A) : silent (ret a).
Proof. reflexivity. Qed.

Create HintDb silent.

#[local] Hint Resolve silent_getProp silent_requireObjectCoercible
  silent_ToNumber silent_ret : silent.

(** Reading the session has no effect of its own. *)
Lemma normalize_trace (W : World) (session : JsValue) :
  trace (normalize W session) = [].
Proof.
  change (silent (normalize W session)). unfold normalize.
  repeat (apply silent_bind; [auto with silent | intros ?]).
  auto with silent.
Qed.

(** ** Routing *)

(** Any event whose discriminator is not the completed-checkout string is
    acknowledged without any effect. *)
Lemma process_event_ignored (W : World) (ev : gmap string JsValue) :
  ev !! "type" <> Some (JStr completed_type) ->
  process_event W (JObj ev) = ([], inr acknowledged).
Proof.
  intros H. unfold process_event. cbn [getProp]. rewrite bind_ret.
  destruct (strict_eq_str (prop ev "type") "checkout.session.completed") eqn:E.
  - apply strict_eq_str_true, prop_eq_str in E. contradiction.
  - reflexivity.
Qed.

Lemma process_event_completed (W : World) (ev d : gmap string JsValue) session :
  ev !! "type" = Some (JStr completed_type) ->
  ev !! "data" = Some (JObj d) ->
  d !! "object" = Some session ->
  process_event W (JObj ev) =
  bind (bind (normalize W session)
          (fun r => let '(customerEmail, formData) := r in
                    bind (console_log [LStr "Processing completed payment for:";
                                       LVal customerEmail])
                         (fun _ => persist W formData)))
       (fun _ => ret acknowledged).
Proof.
  intros Ht Hd Ho. unfold process_event. cbn [getProp]. rewrite bind_ret.
  apply prop_eq_str in Ht. rewrite Ht.
  change (strict_eq_str (JStr completed_type) "checkout.session.completed") with true.
  cbv iota. rewrite (prop_lookup _ _ _ Hd), bind_ret. cbn [getProp].
  rewrite (prop_lookup _ _ _ Ho), bind_ret. reflexivity.
Qed.

(** Once the record is built the request is acknowledged whatever the sink
    does. *)
Lemma process_event_persisted (W : World) (ev d : gmap string JsValue) session
    email fd :
  ev !! "type" = Some (JStr completed_type) ->
  ev !! "data" = Some (JObj d) ->
  d !! "object" = Some session ->
  outcome (normalize W session) = inr (email, fd) ->
  process_event W (JObj ev) =
  (ConsoleLog [LStr "Processing completed payment for:"; LVal email]
     :: trace (persist W fd),
   inr acknowledged).
Proof.
  intros Ht Hd Ho Hn. rewrite (process_event_completed W ev d session Ht Hd Ho).
  rewrite (M_eta (normalize W session)), normalize_trace, Hn.
  change (@pair (list Effect) (JsError + (JsValue * gmap string JsValue)) []
            (inr (email, fd))) with (ret (email, fd)).
  rewrite bind_ret. cbv beta iota.
  pose proof (persist_outcome W fd) as Hp.
  destruct (persist W fd) as [tr' o]. cbn [outcome snd] in Hp. subst o.
  unfold bind, console_log, emit, ret. cbn [app trace fst].
  rewrite app_nil_r. reflexivity.
Qed.

(** When the record cannot be built the exception leaves the handler: no
    response is produced. *)
Lemma process_event_throws (W : World) (ev d : gmap string JsValue) session e :
  ev !! "type" = Some (JStr completed_type) ->
  ev !! "data" = Some (JObj d) ->
  d !! "object" = Some session ->
  outcome (normalize W session) = inl e ->
  process_event W (JObj ev) = ([], inl e).
Proof.
  intros Ht Hd Ho Hn. rewrite (process_event_completed W ev d session Ht Hd Ho).
  rewrite (M_eta (normalize W session)), normalize_trace, Hn. reflexivity.
Qed.

(** An event that is not an object never reaches the sink: [undefined]
    and [null] fail inside the verification block, the other values have
    no [type]. *)
Lemma server_webhook_non_object (W : World) payload sig event :
  verification W payload sig = inr event ->
  (forall ev, event <> JObj ev) ->
  sink_calls (trace (server_webhook W payload sig)) = 0%nat.
Proof.
  unfold verification, server_webhook, verify. intros -> Hne.
  destruct event; try reflexivity.
  exfalso. eapply Hne. reflexivity.
Qed.

Lemma server_webhook_ignores (W : World) payload sig (ev : gmap string JsValue) :
  verification W payload sig = inr (JObj ev) ->
  ev !! "type" <> Some (JStr completed_type) ->
  server_webhook W payload sig =
  ([ConsoleLog [LStr "Webhook received:"; LVal (prop ev "type")]], inr acknowledged).
Proof.
  intros Hv Ht. rewrite (server_webhook_accepts _ _ _ _ Hv).
  rewrite (process_event_ignored _ _ Ht). reflexivity.
Qed.

(** ** The sink is reached only by verified completed checkouts *)

(** C6. The spreadsheet append is invoked only when the delivery's
    signature verification succeeded and the verified event's [type] is
    ['checkout.session.completed'].  In particular a delivery that fails
    verification, and a verified event of any other type, make no sink call.
    Both for the Express route and for the platform function. *)
Theorem sink_only_after_verified_completed (W : World) :
  (forall payload sig,
     sink_calls (trace (server_webhook W payload sig)) <> 0%nat ->
     exists ev, verification W payload sig = inr (JObj ev)
                /\ ev !! "type" = Some (JStr "checkout.session.completed"))
  /\ (forall req,
        sink_calls (trace (handler W req)) <> 0%nat ->
        method req = "POST"
        /\ exists ev, handler_verification W req = inr (JObj ev)
                      /\ ev !! "type" = Some (JStr "checkout.session.completed"))
  /\ (forall payload sig err,
        verification W payload sig = inl err ->
        sink_calls (trace (server_webhook W payload sig)) = 0%nat)
  /\ (forall payload sig ev,
        verification W payload sig = inr (JObj ev) ->
        ev !! "type" <> Some (JStr "checkout.session.completed") ->
        sink_calls (trace (server_webhook W payload sig)) = 0%nat).
Proof.
  assert (Hmain : forall payload sig,
     sink_calls (trace (server_webhook W payload sig)) <> 0%nat ->
     exists ev, verification W payload sig = inr (JObj ev)
                /\ ev !! "type" = Some (JStr "checkout.session.completed")).
  { intros payload sig Hcalls.
    destruct (verification W payload sig) as [err | event] eqn:Hv.
    - rewrite (server_webhook_rejects _ _ _ _ Hv) in Hcalls. contradiction.
    - destruct event as [| | b | x | s | l | ev];
        try (exfalso; apply Hcalls;
             apply (server_webhook_non_object _ _ _ _ Hv); discriminate).
      exists ev. split; [reflexivity |].
      destruct (strict_eq_str (prop ev "type") completed_type) eqn:E.
      + apply strict_eq_str_true, prop_eq_str in E. exact E.
      + exfalso. apply Hcalls.
        rewrite (server_webhook_ignores _ _ _ _ Hv); [reflexivity |].
        intros Ht. apply prop_eq_str, strict_eq_str_true in Ht. congruence. }
  split; [exact Hmain |]. split; [| split].
  - intros req Hcalls.
    destruct (String.eqb (method req) "POST") eqn:Hm.
    + apply String.eqb_eq in Hm. split; [exact Hm |].
      rewrite (handler_post _ _ Hm) in Hcalls. apply Hmain. exact Hcalls.
    + exfalso. apply Hcalls. rewrite handler_not_post; [reflexivity |].
      intros Heq. apply String.eqb_eq in Heq. congruence.
  - intros payload sig err Hv.
    rewrite (server_webhook_rejects _ _ _ _ Hv). reflexivity.
  - intros payload sig ev Hv Ht.
    rewrite (server_webhook_ignores _ _ _ _ Hv Ht). reflexivity.
Qed.

Lemma sink_only_after_verified_completed_witness :
  sink_calls (trace (server_webhook Sample.W Sample.payload Sample.good_sig)) = 1%nat
  /\ (exists ev, verification Sample.W Sample.payload Sample.good_sig = inr (JObj ev)
                 /\ ev !! "type" = Some (JStr "checkout.session.completed"))
  /\ sink_calls (trace (server_webhook Sample.W Sample.payload Sample.forged_sig)) = 0%nat.
Proof.
  assert (H1 : sink_calls (trace (server_webhook Sample.W Sample.payload Sample.good_sig))
               = 1%nat) by (vm_compute; reflexivity).
  destruct (sink_only_after_verified_completed Sample.W) as (Hmain & _ & Hfail & _).
  split; [exact H1 |]. split.
  - apply Hmain. rewrite H1. discriminate.
  - apply (Hfail Sample.payload Sample.forged_sig Sample.bad_signature). reflexivity.
Defined.

(** ** The Normalized Record *)

(** The block succeeds exactly when the metadata and the customer details
    are neither [undefined] nor [null] and the amount converts to a number;
    the record is then [record_of] the values read. *)
Lemma normalize_ok (W : World) (s : gmap string JsValue) email x :
  requireObjectCoercible (prop s "metadata") = ret tt ->
  getProp (prop s "customer_details") "email" = ret email ->
  ToNumber (toNumberOther W) (prop s "amount_total") = ret x ->
  normalize W (JObj s) =
  ret (email, record_of W (prop s "metadata") email (prop s "payment_intent") x).
Proof.
  intros Hm Hc Hn. unfold normalize. cbn [getProp].
  rewrite bind_ret, Hm, bind_ret, bind_ret, Hc, bind_ret, bind_ret, bind_ret.
  rewrite Hn, bind_ret. reflexivity.
Qed.

Lemma normalize_inv (W : World) (session : JsValue) email fd :
  outcome (normalize W session) = inr (email, fd) ->
  exists s x,
    session = JObj s
    /\ requireObjectCoercible (prop s "metadata") = ret tt
    /\ getProp (prop s "customer_details") "email" = ret email
    /\ ToNumber (toNumberOther W) (prop s "amount_total") = ret x
    /\ fd = record_of W (prop s "metadata") email (prop s "payment_intent") x.
Proof.
  intros H.
  destruct session as [| | b | y | t | l | s];
    try (unfold normalize in H; cbn in H; discriminate).
  unfold normalize in H. cbn [getProp] in H. rewrite bind_ret in H.
  destruct (requireObjectCoercible (prop s "metadata")) as [tr1 [e1 | []]] eqn:Hm;
    [rewrite outcome_bind in H; cbn in H; discriminate |].
  assert (tr1 = []) as ->.
  { pose proof (silent_requireObjectCoercible (prop s "metadata")) as Hs.
    unfold silent in Hs. rewrite Hm in Hs. exact Hs. }
  change (@pair (list Effect) (JsError + unit) [] (inr tt)) with (ret tt) in *.
  rewrite bind_ret, bind_ret in H.
  destruct (getProp (prop s "customer_details") "email") as [tr2 [e2 | em]] eqn:Hc;
    [rewrite outcome_bind in H; cbn in H; discriminate |].
  assert (tr2 = []) as ->.
  { pose proof (silent_getProp (prop s "customer_details") "email") as Hs.
    unfold silent in Hs. rewrite Hc in Hs. exact Hs. }
  change (@pair (list Effect) (JsError + JsValue) [] (inr em)) with (ret em) in *.
  rewrite bind_ret, bind_ret, bind_ret in H.
  destruct (ToNumber (toNumberOther W) (prop s "amount_total")) as [tr3 [e3 | x]] eqn:Hn;
    [rewrite outcome_bind in H; cbn in H; discriminate |].
  assert (tr3 = []) as ->.
  { pose proof (silent_ToNumber (toNumberOther W) (prop s "amount_total")) as Hs.
    unfold silent in Hs. rewrite Hn in Hs. exact Hs. }
  change (@pair (list Effect) (JsError + spec_float) [] (inr x)) with (ret x) in *.
  rewrite bind_ret in H. cbn [outcome ret snd] in H.
  injection H as <- <-.
  exists s, x. repeat split; first [assumption | reflexivity].
Qed.

Lemma fixed_fields_lookup (W : World) n e p a (k : string) :
  fixed_fields W n e p a !! k =
  if String.eqb k "name" then Some n
  else if String.eqb k "email" then Some e
  else if String.eqb k "paymentStatus" then Some (JStr "completed")
  else if String.eqb k "paymentId" then Some p
  else if String.eqb k "paymentAmount" then Some (JNum a)
  else if String.eqb k "timestamp" then Some (JStr (now W))
  else None.
Proof.
  unfold fixed_fields. cbn [list_to_map foldr curry fst snd uncurry].
  repeat (rewrite lookup_insert;
          match goal with
          | |- context [decide (?a = k)] =>
              let E := fresh "E" in
              destruct (decide (a = k)) as [<- | ?];
              [reflexivity |
               destruct (String.eqb k a) eqn:E;
               [apply String.eqb_eq in E; congruence | clear E]]
          end).
  apply lookup_empty.
Qed.

(** A pass-through property of the metadata is in the record with the
    metadata's value: the spread comes last. *)
Lemma record_of_passthrough (W : World) metadata email pi x (k : string) v :
  k <> "customerName" ->
  ownProps metadata !! k = Some v ->
  record_of W metadata email pi x !! k = Some v.
Proof.
  intros Hk Hv. unfold record_of, spread_over.
  apply lookup_union_Some_l. rewrite lookup_delete_ne by congruence. exact Hv.
Qed.

(** A name the metadata does not pass through is read from the fixed
    fields. *)
Lemma record_of_fixed (W : World) metadata email pi x (k : string) :
  k = "customerName" \/ ownProps metadata !! k = None ->
  record_of W metadata email pi x !! k =
  fixed_fields W (pick metadata "customerName") email pi
    (Num.div x (Num.of_Z 100)) !! k.
Proof.
  intros Hk. unfold record_of, spread_over. apply lookup_union_r.
  destruct Hk as [-> | Hk].
  - apply lookup_delete_eq.
  - destruct (decide (k = "customerName")) as [-> | Hne].
    + apply lookup_delete_eq.
    + rewrite lookup_delete_ne by congruence. exact Hk.
Qed.

Lemma metadata_of_session (session : JsValue) (md : gmap string JsValue) s :
  session = JObj s ->
  outcome (getProp session "metadata") = inr (JObj md) ->
  prop s "metadata" = JObj md.
Proof. intros -> H. cbn in H. congruence. Qed.

(** C3, as stated, fails: with metadata [{customerName: "Ann", name:
    "Bob"}] the record's [name] is ["Bob"], not the value of
    [customerName]. *)
Lemma name_is_not_always_customerName :
  let fd := record_of Sample.W (JObj Sample.renamed_metadata) (JStr "ann@x.com")
              (JStr "pi_1") (Num.of_Z 5000) in
  outcome (normalize Sample.W Sample.renamed) = inr (JStr "ann@x.com", fd)
  /\ outcome (getProp Sample.renamed "metadata") = inr (JObj Sample.renamed_metadata)
  /\ prop Sample.renamed_metadata "customerName" = JStr "Ann"
  /\ fd !! "name" = Some (JStr "Bob")
  /\ fd !! "name" <> Some (prop Sample.renamed_metadata "customerName").
Proof.
  intros fd.
  assert (Hname : fd !! "name" = Some (JStr "Bob")) by (vm_compute; reflexivity).
  assert (Hcn : prop Sample.renamed_metadata "customerName" = JStr "Ann")
    by (vm_compute; reflexivity).
  split; [vm_compute; reflexivity |].
  split; [vm_compute; reflexivity |].
  split; [exact Hcn |]. split; [exact Hname |].
  rewrite Hname, Hcn. discriminate.
Qed.

(** C3 (amended). For every record produced from a session whose metadata
    is an object: the reserved key [customerName] is not a field of the
    record, every other metadata key/value pair is in the record unchanged,
    and, provided the metadata has no key called [name], the record's
    [name] is the value of [customerName]. *)
Theorem record_name_and_passthrough (W : World) session
    (md : gmap string JsValue) email (fd : gmap string JsValue) :
  outcome (normalize W session) = inr (email, fd) ->
  outcome (getProp session "metadata") = inr (JObj md) ->
  (md !! "name" = None -> fd !! "name" = Some (prop md "customerName"))
  /\ fd !! "customerName" = None
  /\ forall k v, k <> "customerName" -> md !! k = Some v -> fd !! k = Some v.
Proof.
  intros Hn Hmd.
  destruct (normalize_inv _ _ _ _ Hn) as (s & x & Hs & _ & _ & _ & ->).
  rewrite (metadata_of_session _ _ _ Hs Hmd).
  split; [| split].
  - intros Hname. rewrite record_of_fixed by (right; exact Hname).
    rewrite fixed_fields_lookup. reflexivity.
  - rewrite record_of_fixed by (left; reflexivity).
    rewrite fixed_fields_lookup. reflexivity.
  - intros k v Hk Hv. apply record_of_passthrough; assumption.
Qed.

Lemma record_name_and_passthrough_witness :
  exists fd,
    outcome (normalize Sample.W Sample.ann) = inr (JStr "ann@x.com", fd)
    /\ fd !! "name" = Some (JStr "Ann")
    /\ fd !! "customerName" = None
    /\ fd !! "notes" = Some (JStr "vip").
Proof.
  eexists.
  assert (Hn : outcome (normalize Sample.W Sample.ann) =
               inr (JStr "ann@x.com",
                    record_of Sample.W (JObj Sample.ann_metadata) (JStr "ann@x.com")
                      (JStr "pi_1") (Num.of_Z 5000))) by (vm_compute; reflexivity).
  split; [exact Hn |].
  destruct (record_name_and_passthrough Sample.W Sample.ann Sample.ann_metadata
              _ _ Hn) as (H1 & H2 & H3).
  - vm_compute. reflexivity.
  - split; [apply H1; vm_compute; reflexivity |].
    split; [exact H2 |].
    apply H3; [discriminate | vm_compute; reflexivity].
Defined.

(** ** Metadata overrides the fixed fields *)

(** C10. If the metadata of a verified completed checkout has a key whose
    name is one of the record's fixed fields ([name], [email],
    [paymentStatus], [paymentId], [paymentAmount], [timestamp]), the record
    holds the metadata's value under that name, not the computed one: the
    metadata is spread after the fixed fields. *)
Theorem metadata_overrides_fixed_field (W : World) session
    (md : gmap string JsValue) email (fd : gmap string JsValue) (k : string) v :
  outcome (normalize W session) = inr (email, fd) ->
  outcome (getProp session "metadata") = inr (JObj md) ->
  k ∈ fixed_names ->
  md !! k = Some v ->
  fd !! k = Some v.
Proof.
  intros Hn Hmd Hk Hv.
  destruct (normalize_inv _ _ _ _ Hn) as (s & x & Hs & _ & _ & _ & ->).
  rewrite (metadata_of_session _ _ _ Hs Hmd).
  apply record_of_passthrough; [| exact Hv].
  intros ->. unfold fixed_names in Hk.
  repeat (apply elem_of_cons in Hk as [Hk | Hk]; [discriminate |]).
  apply elem_of_nil in Hk. exact Hk.
Qed.

Lemma metadata_overrides_fixed_field_witness :
  exists fd,
    outcome (normalize Sample.W Sample.own_email) = inr (JStr "ann@x.com", fd)
    /\ fd !! "email" = Some (JStr "billing@x.com").
Proof.
  eexists.
  assert (Hn : outcome (normalize Sample.W Sample.own_email) =
               inr (JStr "ann@x.com",
                    record_of Sample.W (JObj Sample.own_email_metadata)
                      (JStr "ann@x.com") (JStr "pi_1") (Num.of_Z 5000)))
    by (vm_compute; reflexivity).
  split; [exact Hn |].
  apply (metadata_overrides_fixed_field Sample.W Sample.own_email
           Sample.own_email_metadata _ _ "email" _ Hn).
  - vm_compute. reflexivity.
  - unfold fixed_names. apply list_elem_of_In. simpl. tauto.
  - vm_compute. reflexivity.
Defined.

(** ** Session creation *)

Lemma truthy_pick_coercible (v : JsValue) (k : string) :
  truthy (pick v k) = true -> requireObjectCoercible v = ret tt.
Proof. destruct v; try reflexivity; discriminate. Qed.

(** The request is refused before the provider is contacted as soon as one
    of the three fields is falsy. *)
Lemma create_refused (W : World) (reqBody : JsValue) :
  requireObjectCoercible reqBody = ret tt ->
  truthy (pick reqBody "productName") && truthy (pick reqBody "productPrice")
    && truthy (pick reqBody "customerEmail") = false ->
  create_checkout_session W reqBody =
  ([ConsoleLog [LStr "Received checkout request:"; LVal reqBody]], inr missing_fields).
Proof.
  intros Hc Hf. unfold create_checkout_session.
  unfold console_log at 1, emit. unfold bind at 1.
  rewrite Hc, bind_ret.
  replace (negb (truthy (pick reqBody "productName"))
           || negb (truthy (pick reqBody "productPrice"))
           || negb (truthy (pick reqBody "customerEmail"))) with true.
  - reflexivity.
  - destruct (truthy (pick reqBody "productName")),
             (truthy (pick reqBody "productPrice")),
             (truthy (pick reqBody "customerEmail")); first [reflexivity | discriminate].
Qed.

(** With three truthy fields the provider is called with [params_of] the
    request and its answer decides the response. *)
Lemma create_forwarded (W : World) (reqBody : JsValue) :
  truthy (pick reqBody "productName") = true ->
  truthy (pick reqBody "productPrice") = true ->
  truthy (pick reqBody "customerEmail") = true ->
  create_checkout_session W reqBody =
  let head := [ConsoleLog [LStr "Received checkout request:"; LVal reqBody];
               StripeSessionsCreate (params_of reqBody)] in
  match sessions_create W (params_of reqBody) with
  | inl e =>
      ((head ++ [ConsoleError [LStr "Error creating checkout session:"; LErr e]])%list,
       inr (mkResponse 500 (Json (obj [("error", JStr (err_message e))]))))
  | inr session =>
      match outcome (getProp session "id") with
      | inl e =>
          ((head ++ [ConsoleError [LStr "Error creating checkout session:"; LErr e]])%list,
           inr (mkResponse 500 (Json (obj [("error", JStr (err_message e))]))))
      | inr id =>
          ((head ++ [ConsoleLog [LStr "Checkout session created:"; LVal id]])%list,
           inr (mkResponse 200
                  (Json (obj [("checkoutUrl",
                               match session with
                               | JObj sess => prop sess "url"
                               | _ => JUndefined
                               end)]))))
      end
  end.
Proof.
  intros Hn Hp He. unfold create_checkout_session.
  unfold console_log at 1, emit at 1. unfold bind at 1.
  rewrite (truthy_pick_coercible _ _ Hn), bind_ret, Hn, Hp, He.
  cbn [negb orb]. fold (params_of reqBody).
  destruct (sessions_create W (params_of reqBody)) as [e | session];
    [reflexivity |].
  destruct session; reflexivity.
Qed.




(** C7, as stated, fails twice over: a request that carries all three
    fields with [productPrice: 0] is answered 400, and a complete request
    the provider rejects is answered 500 without any [checkoutUrl]. *)
Lemma complete_request_without_checkout_url :
  (forall k, k ∈ required_names -> is_Some (ownProps Sample.free_order !! k))
  /\ outcome (create_checkout_session Sample.W Sample.free_order) = inr missing_fields
  /\ status missing_fields = 400
  /\ (forall k, k ∈ required_names -> is_Some (ownProps Sample.paid_order !! k))
  /\ outcome (create_checkout_session Sample.W_provider_down Sample.paid_order) =
     inr (mkResponse 500 (Json (obj [("error", JStr "Invalid integer: abc")]))).
Proof.
  assert (Hall : forall body : JsValue,
            is_Some (ownProps body !! "productName") ->
            is_Some (ownProps body !! "productPrice") ->
            is_Some (ownProps body !! "customerEmail") ->
            forall k, k ∈ required_names -> is_Some (ownProps body !! k)).
  { intros body H1 H2 H3 k Hk. unfold required_names in Hk.
    repeat (apply elem_of_cons in Hk as [-> | Hk]; [assumption |]).
    apply elem_of_nil in Hk. contradiction. }
  split; [apply Hall; vm_compute; eexists; reflexivity |].
  split; [vm_compute; reflexivity |].
  split; [reflexivity |].
  split; [apply Hall; vm_compute; eexists; reflexivity |].
  vm_compute. reflexivity.
Qed.

(** C7 (amended). For every session-creation request whose three required
    fields are present and truthy (a non-empty name and e-mail, a non-zero
    price): the provider is called exactly once, the response is never 400,
    it is [200 {checkoutUrl: session.url}] when the provider returns a
    session object, and [500 {error: message}] when the provider fails. *)
Theorem valid_request_reaches_provider (W : World) (reqBody : JsValue) :
  truthy (pick reqBody "productName") = true ->
  truthy (pick reqBody "productPrice") = true ->
  truthy (pick reqBody "customerEmail") = true ->
  provider_calls (trace (create_checkout_session W reqBody)) = 1%nat
  /\ (exists response,
        outcome (create_checkout_session W reqBody) = inr response
        /\ status response <> 400)
  /\ (forall sess : gmap string JsValue,
        sessions_create W (params_of reqBody) = inr (JObj sess) ->
        outcome (create_checkout_session W reqBody) =
        inr (mkResponse 200 (Json (obj [("checkoutUrl", prop sess "url")]))))
  /\ (forall e,
        sessions_create W (params_of reqBody) = inl e ->
        outcome (create_checkout_session W reqBody) =
        inr (mkResponse 500 (Json (obj [("error", JStr (err_message e))])))).
Proof.
  intros Hn Hp He. rewrite (create_forwarded W reqBody Hn Hp He). cbv zeta.
  destruct (sessions_create W (params_of reqBody)) as [e | session].
  - split; [reflexivity |]. split; [eexists; split; [reflexivity | discriminate] |].
    split; [discriminate |]. intros e' [= <-]. reflexivity.
  - destruct session as [| | b | x | s | l | sess];
      (split; [reflexivity |]);
      (split; [eexists; split; [reflexivity | cbn; discriminate] |]);
      (split; [| discriminate]); intros sess' [=]; subst; reflexivity.
Qed.

Lemma valid_request_reaches_provider_witness :
  outcome (create_checkout_session Sample.W Sample.paid_order) =
  inr (mkResponse 200
         (Json (obj [("checkoutUrl", JStr "https://checkout.stripe.com/c/pay/cs_1")]))).
Proof.
  destruct (valid_request_reaches_provider Sample.W Sample.paid_order)
    as (_ & _ & H & _); [reflexivity | reflexivity | reflexivity |].
  rewrite (H (list_to_map [("id", JStr "cs_1");
                           ("url", JStr "https://checkout.stripe.com/c/pay/cs_1")])
             eq_refl).
  vm_compute. reflexivity.
Defined.

(** ** The appended row *)

Lemma no_sink_call_not_in (tr : list Effect) ce pk req :
  sink_calls tr = 0%nat -> SheetsAppend ce pk req ∉ tr.
Proof.
  unfold sink_calls. induction tr as [| ev tr IH]; intros Hc Hin.
  - apply elem_of_nil in Hin. exact Hin.
  - apply elem_of_cons in Hin as [<- | Hin]; [simpl in Hc; discriminate |].
    apply IH; [| exact Hin]. simpl in Hc. destruct (is_sink_call ev); [discriminate | exact Hc].
Qed.

Lemma store_append_request (W : World) (fd : gmap string JsValue) ce pk req :
  SheetsAppend ce pk req ∈ trace (storeDataInGoogleSheets W fd) ->
  req = append_request (env_value (SPREADSHEET_ID (env W)))
          (JArr [JArr (row_values fd)]).
Proof.
  intros Hin.
  destruct (store_trace_cases W fd) as [H0 | (ce' & pk' & tr & Htr & H0)].
  - exfalso. exact (no_sink_call_not_in _ _ _ _ H0 Hin).
  - rewrite Htr in Hin. apply elem_of_cons in Hin as [Heq | Hin].
    + congruence.
    + exfalso. exact (no_sink_call_not_in _ _ _ _ H0 Hin).
Qed.

(** C9, as stated, fails: the record below carries the pass-through field
    [company: "Acme"], and the row that is appended for it has thirteen
    cells none of which is ["Acme"]. *)
Lemma passthrough_field_not_in_row :
  Sample.record_with_company !! "company" = Some (JStr "Acme")
  /\ (exists ce pk tr,
        trace (storeDataInGoogleSheets Sample.W Sample.record_with_company) =
        SheetsAppend ce pk (append_request (JStr "sheet_1") (JArr [JArr Sample.row_with_company]))
          :: tr)
  /\ JStr "Acme" ∉ Sample.row_with_company.
Proof.
  split; [vm_compute; reflexivity |].
  split; [eexists _, _, _; vm_compute; reflexivity |].
  intros Hin. apply list_elem_of_In in Hin. unfold Sample.row_with_company in Hin. simpl in Hin.
  repeat destruct Hin as [Hin | Hin]; try discriminate Hin. exact Hin.
Qed.

(** C9 (amended). For every record handed to the sink, the row that is
    appended has thirteen cells in one fixed order: [timestamp], [name],
    [email], [paymentStatus], [paymentId], [paymentAmount] as stored in the
    record, then [preferences], [notes], [age], [primaryConcern],
    [additionalConcerns], [goals], [photoCount], each as stored when truthy
    and [''] otherwise.  Fields of the record under any other name are not
    written: two records that agree on the thirteen names yield the same
    row. *)
Theorem appended_row_layout (W : World) (fd : gmap string JsValue) ce pk req :
  SheetsAppend ce pk req ∈ trace (storeDataInGoogleSheets W fd) ->
  exists row,
    req = append_request (env_value (SPREADSHEET_ID (env W))) (JArr [JArr row])
    /\ row = (map (prop fd) leading_names
              ++ map (fun k => js_or (prop fd k) (JStr "")) extra_names)%list
    /\ length row = 13%nat
    /\ forall fd' : gmap string JsValue,
         (forall k, k ∈ (leading_names ++ extra_names)%list -> fd' !! k = fd !! k) ->
         row_values fd' = row.
Proof.
  intros Hin. exists (row_values fd).
  split; [exact (store_append_request _ _ _ _ _ Hin) |].
  split; [reflexivity |]. split; [reflexivity |].
  intros fd' Hagree.
  assert (Hp : forall k, k ∈ (leading_names ++ extra_names)%list ->
                         prop fd' k = prop fd k).
  { intros k Hk. unfold prop. rewrite (Hagree k Hk). reflexivity. }
  unfold row_values.
  rewrite !Hp by (apply list_elem_of_In; simpl; tauto).
  reflexivity.
Qed.

Lemma appended_row_layout_witness :
  exists row,
    append_request (JStr "sheet_1") (JArr [JArr (row_values Sample.record_with_company)]) =
    append_request (JStr "sheet_1") (JArr [JArr row])
    /\ row = Sample.row_with_company.
Proof.
  destruct (appended_row_layout Sample.W Sample.record_with_company
              (JStr "svc@project.iam") (JStr "KEY")
              (append_request (JStr "sheet_1") (JArr [JArr (row_values Sample.record_with_company)])))
    as (row & Hreq & Hrow & _).
  - apply list_elem_of_In. vm_compute. left. reflexivity.
  - exists row. split; [exact Hreq |]. rewrite Hrow. vm_compute. reflexivity.
Defined.

(** ** Acknowledgment *)

(** A verified completed checkout whose record can be built is
    acknowledged with [200 {received: true}] whatever the sink does. *)
Lemma server_webhook_persisted (W : World) payload sig
    (ev d : gmap string JsValue) session email fd :
  verification W payload sig = inr (JObj ev) ->
  ev !! "type" = Some (JStr completed_type) ->
  ev !! "data" = Some (JObj d) ->
  d !! "object" = Some session ->
  outcome (normalize W session) = inr (email, fd) ->
  server_webhook W payload sig =
  (ConsoleLog [LStr "Webhook received:"; LVal (JStr completed_type)]
     :: ConsoleLog [LStr "Processing completed payment for:"; LVal email]
     :: trace (persist W fd),
   inr acknowledged).
Proof.
  intros Hv Ht Hd Ho Hn. rewrite (server_webhook_accepts _ _ _ _ Hv).
  rewrite (process_event_persisted _ _ _ _ _ _ Ht Hd Ho Hn).
  rewrite (prop_lookup _ _ _ Ht). reflexivity.
Qed.

(** When the record cannot be built the exception escapes the handler:
    nothing is sent to the provider, in particular no 200. *)
Lemma server_webhook_throws (W : World) payload sig
    (ev d : gmap string JsValue) session e :
  verification W payload sig = inr (JObj ev) ->
  ev !! "type" = Some (JStr completed_type) ->
  ev !! "data" = Some (JObj d) ->
  d !! "object" = Some session ->
  outcome (normalize W session) = inl e ->
  server_webhook W payload sig =
  ([ConsoleLog [LStr "Webhook received:"; LVal (JStr completed_type)]], inl e).
Proof.
  intros Hv Ht Hd Ho Hn. rewrite (server_webhook_accepts _ _ _ _ Hv).
  rewrite (process_event_throws _ _ _ _ _ Ht Hd Ho Hn).
  rewrite (prop_lookup _ _ _ Ht). reflexivity.
Qed.

(** The sink failing does not change the response (the second half of
    C2). *)
Lemma sink_failure_is_acknowledged :
  outcome (storeDataInGoogleSheets Sample.W_sheet_down
             (record_of Sample.W_sheet_down (JObj Sample.ann_metadata)
                (JStr "ann@x.com") (JStr "pi_1") (Num.of_Z 5000))) =
    inl (mkError "Error" "The caller does not have permission")
  /\ outcome (server_webhook Sample.W_sheet_down Sample.payload Sample.good_sig) =
     inr acknowledged.
Proof. split; vm_compute; reflexivity. Qed.

(** C2 at the failing input.  The delivery is verified, its type is
    ['checkout.session.completed'] and its session has [customer_details:
    null]: reading [session.customer_details.email] throws outside any
    [try], so both handlers end with a [TypeError] instead of the response
    [200 {received: true}], after the single line ["Webhook received:"]. *)
Theorem null_customer_details_is_not_acknowledged :
  verification Sample.W_null_details Sample.payload Sample.good_sig =
    inr (Sample.completed Sample.session_null_details)
  /\ server_webhook Sample.W_null_details Sample.payload Sample.good_sig =
     ([ConsoleLog [LStr "Webhook received:"; LVal (JStr "checkout.session.completed")]],
      inl (TypeError "Cannot read properties of null (reading 'email')"))
  /\ handler Sample.W_null_details (Sample.post Sample.good_sig) =
     ([ConsoleLog [LStr "Webhook received:"; LVal (JStr "checkout.session.completed")]],
      inl (TypeError "Cannot read properties of null (reading 'email')"))
  /\ outcome (server_webhook Sample.W_null_details Sample.payload Sample.good_sig)
     <> inr acknowledged.
Proof.
  split; [reflexivity |].
  assert (H : server_webhook Sample.W_null_details Sample.payload Sample.good_sig =
     ([ConsoleLog [LStr "Webhook received:"; LVal (JStr "checkout.session.completed")]],
      inl (TypeError "Cannot read properties of null (reading 'email')"))).
  { apply (server_webhook_throws Sample.W_null_details Sample.payload Sample.good_sig
             (list_to_map [("type", JStr "checkout.session.completed");
                           ("data", obj [("object", Sample.session_null_details)])])
             (list_to_map [("object", Sample.session_null_details)])
             Sample.session_null_details);
      vm_compute; reflexivity. }
  split; [exact H |]. split.
  - rewrite handler_post by reflexivity. exact H.
  - rewrite H. discriminate.
Qed.

(** C5, as stated, fails: for the verified completed checkout whose
    customer details carry no e-mail, nothing is logged as a failure; the
    record is appended to the sheet like any other and the request is
    acknowledged. *)
Lemma absent_email_is_not_a_logged_failure :
  verification Sample.W_no_email Sample.payload Sample.good_sig =
    inr (Sample.completed Sample.session_without_email)
  /\ outcome (getProp (obj []) "email") = inr JUndefined
  /\ outcome (server_webhook Sample.W_no_email Sample.payload Sample.good_sig) =
     inr acknowledged
  /\ error_logs (trace (server_webhook Sample.W_no_email Sample.payload Sample.good_sig))
     = 0%nat
  /\ sink_calls (trace (server_webhook Sample.W_no_email Sample.payload Sample.good_sig))
     = 1%nat.
Proof. repeat split; vm_compute; reflexivity. Qed.

(** C5 (amended). For every verified 'checkout.session.completed' event
    whose session carries metadata and a customer-details object without
    [email] (and an amount that converts to a number), the absent e-mail is
    not a failure: the record is built with the e-mail [undefined], it is
    handed to the guarded sink call like any other record, nothing else is
    logged, and the response is [200 {received: true}]. *)
Theorem absent_email_is_acknowledged (W : World) payload sig
    (ev d s cd : gmap string JsValue) x :
  verification W payload sig = inr (JObj ev) ->
  ev !! "type" = Some (JStr "checkout.session.completed") ->
  ev !! "data" = Some (JObj d) ->
  d !! "object" = Some (JObj s) ->
  requireObjectCoercible (prop s "metadata") = ret tt ->
  s !! "customer_details" = Some (JObj cd) ->
  cd !! "email" = None ->
  ToNumber (toNumberOther W) (prop s "amount_total") = ret x ->
  let formData :=
    record_of W (prop s "metadata") JUndefined (prop s "payment_intent") x in
  server_webhook W payload sig =
    (ConsoleLog [LStr "Webhook received:"; LVal (JStr "checkout.session.completed")]
       :: ConsoleLog [LStr "Processing completed payment for:"; LVal JUndefined]
       :: trace (persist W formData),
     inr (mkResponse 200 (Json (obj [("received", JBool true)]))))
  /\ (forall req : Request,
        method req = "POST" ->
        RawBytes (getRawBody (chunks req)) = payload ->
        stripe_signature req = sig ->
        handler W req = server_webhook W payload sig).
Proof.
  intros Hv Ht Hd Ho Hm Hcd Hem Hx formData. split.
  - apply (server_webhook_persisted W payload sig ev d (JObj s)); try assumption.
    rewrite (normalize_ok W s JUndefined x); [reflexivity | exact Hm | | exact Hx].
    rewrite (prop_lookup _ _ _ Hcd). cbn [getProp].
    rewrite (prop_absent _ _ Hem). reflexivity.
  - intros req Hpost <- <-. apply handler_post. exact Hpost.
Qed.

Lemma absent_email_is_acknowledged_witness :
  outcome (server_webhook Sample.W_no_email Sample.payload Sample.good_sig) =
  inr (mkResponse 200 (Json (obj [("received", JBool true)]))).
Proof.
  destruct (absent_email_is_acknowledged Sample.W_no_email Sample.payload
              Sample.good_sig
              (list_to_map [("type", JStr "checkout.session.completed");
                            ("data", obj [("object", Sample.session_without_email)])])
              (list_to_map [("object", Sample.session_without_email)])
              (list_to_map [("metadata", obj [("customerName", JStr "Ann")]);
                            ("customer_details", obj []);
                            ("payment_intent", JStr "pi_1");
                            ("amount_total", JNum (Num.of_Z 5000))])
              ∅ (Num.of_Z 5000)) as [H _];
    [vm_compute; reflexivity .. |].
  rewrite H. reflexivity.
Defined.

(** ** Binary64: integers and division by 100 *)

Section Binary64.

Local Open Scope Z_scope.

(** The number of binary digits is [Z.log2 + 1]. *)
Lemma digits2_pos_size (p : positive) : digits2_pos p = Pos.size p.
Proof. induction p; simpl; congruence. Qed.

Lemma Zdigits2_log2 (z : Z) : 0 < z -> Zdigits2 z = Z.log2 z + 1.
Proof.
  destruct z as [| p | p]; try lia. intros _. simpl.
  rewrite digits2_pos_size. destruct p; simpl; lia.
Qed.

Lemma Zdigits2_unique (z n : Z) : 0 < n -> 2 ^ (n - 1) <= z < 2 ^ n -> Zdigits2 z = n.
Proof.
  intros Hn H. assert (0 < z) by (pose proof (Z.pow_pos_nonneg 2 (n-1)); lia).
  rewrite Zdigits2_log2 by assumption.
  rewrite (Z.log2_unique z (n - 1)); try lia.
  replace (Z.succ (n - 1)) with n by lia. exact H.
Qed.

(** Shifting a mantissa left by [k] bits multiplies it by [2^k]. *)
Lemma iter_xO_pow (p k : positive) : Zpos (Pos.iter xO p k) = Zpos p * 2 ^ Zpos k.
Proof.
  induction k as [| k IH] using Pos.peano_ind.
  - simpl. lia.
  - rewrite Pos.iter_succ, Pos2Z.inj_xO, IH, Pos2Z.inj_succ, Z.pow_succ_r by lia. lia.
Qed.

(** In the normal range the exponent of a number with [e] digits above
    the binary point is [e - 53]. *)
Lemma fexp_normal (e : Z) : -1021 <= e -> fexp 53 1024 e = e - 53.
Proof. unfold fexp, emin. lia. Qed.

(** A 53-digit mantissa is kept as it is; a 54-digit one loses one bit. *)
Lemma shr_fexp_keep (m e : Z) (l : location) :
  Zdigits2 m = 53 -> -1074 <= e ->
  shr_fexp 53 1024 m e l = (shr_record_of_loc m l, e).
Proof.
  intros Hd He. unfold shr_fexp. rewrite Hd, fexp_normal by lia.
  replace (53 + e - 53 - e) with 0 by lia. reflexivity.
Qed.

Lemma shr_fexp_one (m e : Z) (l : location) :
  Zdigits2 m = 54 -> -1074 <= e ->
  shr_fexp 53 1024 m e l = (shr_1 (shr_record_of_loc m l), e + 1).
Proof.
  intros Hd He. unfold shr_fexp. rewrite Hd, fexp_normal by lia.
  replace (54 + e - 53 - e) with 1 by lia. reflexivity.
Qed.

Lemma loc_of_record_of_loc (m : Z) (l : location) :
  loc_of_shr_record (shr_record_of_loc m l) = l.
Proof. destruct l as [| []]; reflexivity. Qed.

Lemma shr_m_record_of_loc (m : Z) (l : location) :
  shr_m (shr_record_of_loc m l) = m.
Proof. destruct l as [| []]; reflexivity. Qed.

(** An exact 53-digit mantissa in range is its own rounding. *)
Lemma round_aux_exact (s : bool) (m : positive) (e : Z) :
  Zdigits2 (Zpos m) = 53 -> -1074 <= e <= 971 ->
  binary_round_aux 53 1024 s (Zpos m) e loc_Exact = S754_finite s m e.
Proof.
  intros Hd He. unfold binary_round_aux.
  rewrite (shr_fexp_keep _ _ _ Hd) by lia. cbn [shr_m shr_record_of_loc loc_of_shr_record round_nearest_even].
  rewrite (shr_fexp_keep _ _ _ Hd) by lia. cbn [shr_m shr_record_of_loc].
  replace (e <=? 1024 - 53) with true by (symmetry; apply Z.leb_le; lia).
  reflexivity.
Qed.

(** An integer below [2^53] converts without rounding: its mantissa is the
    integer shifted up to 53 digits. *)
Lemma of_Z_normal (a : Z) :
  0 < a < 2 ^ 53 ->
  exists m, Num.of_Z a = S754_finite false m (Z.log2 a - 52)
            /\ Zpos m = a * 2 ^ (52 - Z.log2 a)
            /\ 2 ^ 52 <= Zpos m < 2 ^ 53.
Proof.
  intros Ha. destruct a as [| p | p]; try lia.
  pose proof (Z.log2_spec (Zpos p) ltac:(lia)) as Hlog.
  pose proof (Z.log2_nonneg (Zpos p)) as Hnn.
  assert (Hlt : Z.log2 (Zpos p) < 53).
  { apply Z.log2_lt_pow2; lia. }
  assert (Hd : Zpos (digits2_pos p) = Z.log2 (Zpos p) + 1).
  { apply (Zdigits2_log2 (Zpos p)). lia. }
  unfold Num.of_Z, binary_normalize, binary_round, Num.prec, Num.emax.
  rewrite Hd, fexp_normal by lia. unfold shl_align.
  replace (Z.log2 (Zpos p) + 1 + 0 - 53 - 0) with (Z.log2 (Zpos p) - 52) by lia.
  destruct (Z.log2 (Zpos p) - 52) as [| k | k] eqn:Ek; try lia.
  - assert (HL : Z.log2 (Zpos p) = 52) by lia. rewrite HL in Hlog.
    assert (Hdp : Zdigits2 (Zpos p) = 53) by (simpl; lia).
    exists p. rewrite round_aux_exact by (assumption || lia).
    replace (52 - Z.log2 (Zpos p)) with 0 by lia.
    split; [reflexivity | split; [lia |]].
    change (Z.succ 52) with 53 in Hlog. exact Hlog.
  - set (mz := Pos.iter xO p k).
    assert (Hmz : Zpos mz = Zpos p * 2 ^ Zpos k) by apply iter_xO_pow.
    assert (Hk : Zpos k = 52 - Z.log2 (Zpos p)) by lia.
    assert (Hb : 2 ^ 52 <= Zpos mz < 2 ^ 53).
    { rewrite Hmz, Hk.
      replace (2 ^ 52) with (2 ^ Z.log2 (Zpos p) * 2 ^ (52 - Z.log2 (Zpos p)))
        by (rewrite <- Z.pow_add_r by lia; f_equal; lia).
      replace (2 ^ 53) with (2 ^ Z.succ (Z.log2 (Zpos p)) * 2 ^ (52 - Z.log2 (Zpos p)))
        by (rewrite <- Z.pow_add_r by lia; f_equal; lia).
      pose proof (Z.pow_pos_nonneg 2 (52 - Z.log2 (Zpos p))). nia. }
    assert (Hdz : Zdigits2 (Zpos mz) = 53) by (apply Zdigits2_unique; lia).
    exists mz. rewrite round_aux_exact by (assumption || lia).
    rewrite <- Hk. split; [f_equal; lia | split; [exact Hmz | exact Hb]].
Qed.

Lemma round_nearest_even_bounds (m : Z) (l : location) :
  m <= round_nearest_even m l <= m + 1.
Proof.
  destruct l as [| []]; simpl; try lia. destruct (Z.even m); lia.
Qed.

(** One right shift: the quotient by two, the bit shifted out, and the
    sticky bit. *)
Lemma shr_1_pos (m : Z) (r s : bool) :
  0 < m ->
  shr_1 (Build_shr_record m r s) = Build_shr_record (m / 2) (Z.odd m) (r || s).
Proof.
  intros Hm. destruct m as [| p | p]; try lia.
  destruct p as [p | p |]; unfold shr_1.
  - rewrite Pos2Z.inj_xI. replace ((2 * Zpos p + 1) / 2) with (Zpos p)
      by (apply Z.div_unique with 1; lia).
    reflexivity.
  - rewrite Pos2Z.inj_xO. replace ((2 * Zpos p) / 2) with (Zpos p)
      by (apply Z.div_unique with 0; lia).
    reflexivity.
  - reflexivity.
Qed.

Lemma record_of_loc_fields (m : Z) (l : location) :
  shr_record_of_loc m l = Build_shr_record m (Num.loc_r l) (Num.loc_s l).
Proof. destruct l as [| []]; reflexivity. Qed.

(** Rounding a 53-digit quotient: round to nearest even, and renormalise
    when that carries into a 54th digit. *)
Lemma round_aux_53 (q e : Z) (l : location) :
  Zdigits2 q = 53 -> 2 ^ 52 <= q < 2 ^ 53 -> -1074 <= e <= 900 ->
  binary_round_aux 53 1024 false q e l =
  if round_nearest_even q l =? 2 ^ 53
  then S754_finite false (2 ^ 52)%positive (e + 1)
  else S754_finite false (Z.to_pos (round_nearest_even q l)) e.
Proof.
  intros Hd Hq He. unfold binary_round_aux.
  rewrite (shr_fexp_keep _ _ _ Hd) by lia.
  rewrite loc_of_record_of_loc, shr_m_record_of_loc.
  pose proof (round_nearest_even_bounds q l) as Hb.
  set (q' := round_nearest_even q l) in *.
  destruct (q' =? 2 ^ 53) eqn:E.
  - apply Z.eqb_eq in E. rewrite E.
    rewrite shr_fexp_one by (reflexivity || lia).
    change (shr_1 (shr_record_of_loc (2 ^ 53) loc_Exact))
      with (Build_shr_record (Zpos (2 ^ 52)%positive) false false).
    cbn [shr_m].
    replace (e + 1 <=? 1024 - 53) with true by (symmetry; apply Z.leb_le; lia).
    reflexivity.
  - apply Z.eqb_neq in E.
    assert (Hd' : Zdigits2 q' = 53) by (apply Zdigits2_unique; lia).
    rewrite (shr_fexp_keep _ _ _ Hd') by lia. cbn [shr_m shr_record_of_loc].
    destruct q' as [| p | p]; try lia. 
    replace (e <=? 1024 - 53) with true by (symmetry; apply Z.leb_le; lia).
    reflexivity.
Qed.

(** Rounding a 54-digit quotient below [3 * 2^52]: drop one bit, then
    round to nearest even; no carry can occur. *)
Lemma round_aux_54 (q e : Z) (l : location) :
  2 ^ 53 <= q < 3 * 2 ^ 52 -> -1074 <= e <= 900 ->
  binary_round_aux 53 1024 false q e l =
  S754_finite false
    (Z.to_pos (round_nearest_even (q / 2)
                 (loc_of_shr_record
                    (Build_shr_record (q / 2) (Z.odd q) (Num.loc_r l || Num.loc_s l)))))
    (e + 1).
Proof.
  intros Hq He. unfold binary_round_aux.
  assert (Hd : Zdigits2 q = 54) by (apply Zdigits2_unique; lia).
  rewrite (shr_fexp_one _ _ _ Hd) by lia.
  rewrite record_of_loc_fields, shr_1_pos by lia.
  cbn [shr_m].
  set (l' := loc_of_shr_record _).
  pose proof (round_nearest_even_bounds (q / 2) l') as Hb.
  assert (Hh : 2 ^ 52 <= q / 2 < 3 * 2 ^ 51).
  { split; [apply Z.div_le_lower_bound; lia | apply Z.div_lt_upper_bound; lia]. }
  set (q' := round_nearest_even (q / 2) l') in *.
  assert (Hd' : Zdigits2 q' = 53) by (apply Zdigits2_unique; lia).
  rewrite (shr_fexp_keep _ _ _ Hd') by lia. cbn [shr_m shr_record_of_loc].
  destruct q' as [| p | p]; try lia.
  replace (e + 1 <=? 1024 - 53) with true by (symmetry; apply Z.leb_le; lia).
  reflexivity.
Qed.

Lemma of_Z_100 : Num.of_Z 100 = S754_finite false 7036874417766400 (-46).
Proof. reflexivity. Qed.

Lemma div_eucl_div_mod (a b : Z) : Z.div_eucl a b = (a / b, a mod b).
Proof. unfold Z.div, Z.modulo. destruct (Z.div_eucl a b). reflexivity. Qed.

(** The integer division behind [x / 100] for a normal [x]: the mantissa is
    shifted by 53 bits and divided by the mantissa of 100. *)
Lemma div_core_100 (m1 : positive) (e1 : Z) :
  2 ^ 52 <= Zpos m1 < 2 ^ 53 -> -52 <= e1 <= 0 ->
  SFdiv_core_binary 53 1024 (Zpos m1) e1 Num.D100 (-46) =
  ((Zpos m1 * 2 ^ 53) / Num.D100, e1 - 7,
   if (Zpos m1 * 2 ^ 53) mod Num.D100 =? 0 then loc_Exact
   else loc_Inexact (2 * ((Zpos m1 * 2 ^ 53) mod Num.D100) ?= Num.D100)).
Proof.
  intros Hm He. unfold SFdiv_core_binary.
  rewrite (Zdigits2_unique (Zpos m1) 53) by lia.
  change (Zdigits2 Num.D100) with 53.
  replace (53 + e1 - (53 + -46)) with (e1 + 46) by lia.
  rewrite fexp_normal by lia.
  replace (Z.min (e1 + 46 - 53) (e1 - -46)) with (e1 - 7) by lia.
  replace (e1 - -46 - (e1 - 7)) with 53 by lia.
  rewrite Z.shiftl_mul_pow2 by lia.
  rewrite div_eucl_div_mod. reflexivity.
Qed.

(** The quotient of a positive integer below [2^53] by 100 is a normal
    number [m * 2^e] at distance at most [2^e / 2] from the rational
    quotient, that is [|100 * m - a * 2^(-e)| <= 50]. *)
Lemma div_100_rounded (a : Z) :
  0 < a < 2 ^ 53 ->
  exists m e,
    Num.div (Num.of_Z a) (Num.of_Z 100) = S754_finite false m e
    /\ 2 ^ 52 <= Zpos m < 2 ^ 53
    /\ -59 <= e <= -6
    /\ Z.abs (100 * Zpos m - a * 2 ^ (- e)) <= 50.
Proof.
  intros Ha.
  destruct (of_Z_normal a Ha) as (m1 & Hof & Hm1 & Hb).
  pose proof (Z.log2_nonneg a) as Hnn.
  assert (Hlt : Z.log2 a < 53) by (apply Z.log2_lt_pow2; lia).
  rewrite Hof, of_Z_100. unfold Num.div, SFdiv, Num.prec, Num.emax.
  set (e1 := Z.log2 a - 52) in *.
  change (Zpos 7036874417766400) with Num.D100.
  rewrite (div_core_100 m1 e1) by lia. cbn [xorb].
  assert (H128 : a * 2 ^ (- (e1 - 7)) = Zpos m1 * 128).
  { rewrite Hm1. unfold e1.
    replace (- (Z.log2 a - 52 - 7)) with ((52 - Z.log2 a) + 7) by lia.
    rewrite Z.pow_add_r by lia. change (2 ^ 7) with 128. lia. }
  assert (H64 : a * 2 ^ (- (e1 - 7 + 1)) = Zpos m1 * 64).
  { rewrite Hm1. unfold e1.
    replace (- (Z.log2 a - 52 - 7 + 1)) with ((52 - Z.log2 a) + 6) by lia.
    rewrite Z.pow_add_r by lia. change (2 ^ 6) with 64. lia. }
  pose proof (Z.div_mod (Zpos m1 * 2 ^ 53) Num.D100 ltac:(discriminate)) as Hdm.
  pose proof (Z.mod_pos_bound (Zpos m1 * 2 ^ 53) Num.D100 ltac:(reflexivity)) as Hr.
  set (q := Zpos m1 * 2 ^ 53 / Num.D100) in *.
  set (r := (Zpos m1 * 2 ^ 53) mod Num.D100) in *.
  unfold Num.D100 in Hdm, Hr.
  assert (Hq : 2 ^ 52 <= q < 3 * 2 ^ 52) by lia.
  set (l := if r =? 0 then loc_Exact else loc_Inexact (2 * r ?= Num.D100)).
  destruct (Z_lt_le_dec q (2 ^ 53)) as [Hsmall | Hbig].
  - rewrite round_aux_53 by (try apply Zdigits2_unique; lia).
    assert (Hl : round_nearest_even q l = q /\ 2 * r <= 7036874417766400
                 \/ round_nearest_even q l = q + 1 /\ 7036874417766400 <= 2 * r).
    { unfold l. destruct (r =? 0) eqn:Er.
      - apply Z.eqb_eq in Er. left. simpl. lia.
      - destruct (2 * r ?= Num.D100) eqn:Ec; simpl.
        + apply Z.compare_eq in Ec. unfold Num.D100 in Ec.
          destruct (Z.even q); [left | right]; lia.
        + rewrite Z.compare_lt_iff in Ec. unfold Num.D100 in Ec. left. lia.
        + rewrite Z.compare_gt_iff in Ec. unfold Num.D100 in Ec. right. lia. }
    destruct (round_nearest_even q l =? 2 ^ 53) eqn:E53.
    + apply Z.eqb_eq in E53. exists (2 ^ 52)%positive, (e1 - 7 + 1).
      split; [reflexivity |]. split; [lia |]. split; [unfold e1; lia |].
      rewrite H64. lia.
    + apply Z.eqb_neq in E53.
      exists (Z.to_pos (round_nearest_even q l)), (e1 - 7).
      split; [reflexivity |]. rewrite Z2Pos.id by lia.
      split; [lia |]. split; [unfold e1; lia |]. rewrite H128. lia.
  - rewrite round_aux_54 by lia.
    set (h := q / 2).
    pose proof (Z.div_mod q 2 ltac:(discriminate)) as Hq2.
    pose proof (Z.mod_pos_bound q 2 ltac:(reflexivity)) as Hq2b.
    fold h in Hq2.
    assert (Hodd : Z.odd q = (q mod 2 =? 1)).
    { rewrite Zmod_odd. destruct (Z.odd q); reflexivity. }
    set (l' := loc_of_shr_record _).
    assert (Hl : round_nearest_even h l' = h /\ (q mod 2 = 0 \/ r = 0)
                 \/ round_nearest_even h l' = h + 1 /\ q mod 2 = 1).
    { unfold l'. rewrite Hodd. unfold l.
      destruct (q mod 2 =? 1) eqn:Eo.
      - apply Z.eqb_eq in Eo. destruct (r =? 0) eqn:Er.
        + apply Z.eqb_eq in Er. simpl.
          destruct (Z.even h); [left | right]; lia.
        + right. destruct (2 * r ?= Num.D100); simpl; lia.
      - apply Z.eqb_neq in Eo. left.
        destruct (r =? 0); [| destruct (2 * r ?= Num.D100)]; simpl; lia. }
    exists (Z.to_pos (round_nearest_even h l')), (e1 - 7 + 1).
    split; [reflexivity |]. rewrite Z2Pos.id by lia.
    split; [lia |]. split; [unfold e1; lia |]. rewrite H64. lia.
Qed.

Lemma to_Q_negative_exponent (m : positive) (e : Z) :
  e < 0 ->
  Num.to_Q (S754_finite false m e) = Some (Zpos m # Z.to_pos (2 ^ (- e))).
Proof.
  intros He. destruct e as [| p | p]; try lia.
  cbn [Num.to_Q Z.opp]. do 2 f_equal.
  change (- Z.neg p) with (Zpos p).
  change (2 ^ Zpos p) with (Zpos 2 ^ Zpos p).
  rewrite <- Pos2Z.inj_pow. reflexivity.
Qed.

(** Exactness, without fractions. *)
Lemma exactly_finite (m : positive) (e n : Z) (d : positive) :
  e < 0 ->
  Num.exactly (S754_finite false m e) n d <-> Zpos d * Zpos m = n * 2 ^ (- e).
Proof.
  intros He. unfold Num.exactly. rewrite to_Q_negative_exponent by exact He.
  unfold Qeq. cbn [Qnum Qden].
  assert (0 < 2 ^ (- e)) by (apply Z.pow_pos_nonneg; lia).
  rewrite Z2Pos.id by assumption. split; lia.
Qed.

Lemma gcd_25_pow2 (k : Z) : 0 <= k -> Z.gcd 25 (2 ^ k) = 1.
Proof. intros Hk. apply Z.coprime_pow_r; [exact Hk | reflexivity]. Qed.

(** [a / 100] in binary64 is the nearest number to the rational [a/100],
    and is that rational exactly when 25 divides [a]. *)
Lemma div_100_spec (a : Z) :
  0 <= a < 2 ^ 53 ->
  Num.nearest (Num.div (Num.of_Z a) (Num.of_Z 100)) a 100
  /\ (Num.exactly (Num.div (Num.of_Z a) (Num.of_Z 100)) a 100 <-> (25 | a)).
Proof.
  intros Ha. destruct (Z.eq_dec a 0) as [-> | Hne].
  - split; [reflexivity |]. split; intros _.
    + apply Z.divide_0_r.
    + reflexivity.
  - destruct (div_100_rounded a ltac:(lia)) as (m & e & -> & Hm & He & Hab).
    split; [cbn; lia |].
    rewrite exactly_finite by lia.
    assert (Hk : 2 ^ (- e) = 4 * 2 ^ (- e - 2)).
    { change 4 with (2 ^ 2). rewrite <- Z.pow_add_r by lia. f_equal. lia. }
    split.
    + intros Heq. apply Z.gauss with (2 ^ (- e)); [| apply gcd_25_pow2; lia].
      exists (4 * Zpos m). lia.
    + intros [b ->]. rewrite Hk in *. nia.
Qed.

End Binary64.

(** ** The amount *)

(** C4, as stated, fails: for [amount_total = 2999] the record's
    [paymentAmount] is the binary64 number 8441434551552573 * 2^-48, which
    is not the rational 2999/100; and a metadata key [paymentAmount]
    replaces the quotient altogether. *)
Lemma paymentAmount_is_not_the_exact_quotient :
  let fd := record_of Sample.W (obj [("customerName", JStr "Ann")]) (JStr "ann@x.com")
              (JStr "pi_1") (Num.of_Z 2999) in
  let fd' := record_of Sample.W (JObj Sample.own_amount_metadata) (JStr "ann@x.com")
               (JStr "pi_1") (Num.of_Z 5000) in
  (outcome (normalize Sample.W Sample.cents_2999) = inr (JStr "ann@x.com", fd)
   /\ fd !! "paymentAmount" = Some (JNum (S754_finite false 8441434551552573 (-48)))
   /\ Num.to_Q (S754_finite false 8441434551552573 (-48))
      = Some (8441434551552573 # 281474976710656)%Q
   /\ ~ (8441434551552573 # 281474976710656 == 2999 # 100)%Q)
  /\ (outcome (normalize Sample.W Sample.own_amount) = inr (JStr "ann@x.com", fd')
      /\ fd' !! "paymentAmount" = Some (JStr "free")).
Proof.
  intros fd fd'. split.
  - split; [vm_compute; reflexivity |].
    split; [vm_compute; reflexivity |].
    split; [reflexivity |].
    unfold Qeq. cbn [Qnum Qden]. lia.
  - split; vm_compute; reflexivity.
Qed.

(** C4 (amended). For every record produced from a session whose
    [amount_total] is the integer [a], [0 <= a < 2^53], and whose metadata
    is an object without a key [paymentAmount], the record's
    [paymentAmount] is the binary64 quotient [a / 100]: the binary64 number
    nearest to the rational [a/100] (within half a unit in the last place),
    and equal to [a/100] exactly if and only if [a] is a multiple of 25. *)
Theorem paymentAmount_is_rounded_quotient (W : World) session
    (md : gmap string JsValue) email (fd : gmap string JsValue) (a : Z) :
  outcome (normalize W session) = inr (email, fd) ->
  outcome (getProp session "metadata") = inr (JObj md) ->
  md !! "paymentAmount" = None ->
  outcome (getProp session "amount_total") = inr (JNum (Num.of_Z a)) ->
  0 <= a < 2 ^ 53 ->
  exists x,
    fd !! "paymentAmount" = Some (JNum x)
    /\ x = Num.div (Num.of_Z a) (Num.of_Z 100)
    /\ Num.nearest x a 100
    /\ (Num.exactly x a 100 <-> (25 | a)).
Proof.
  intros Hn Hmd Hnone Ham Ha.
  destruct (normalize_inv _ _ _ _ Hn) as (s & x & Hs & _ & _ & Hx & ->).
  rewrite (metadata_of_session _ _ _ Hs Hmd).
  subst session. cbn in Ham. injection Ham as Ham. rewrite Ham in Hx.
  cbn in Hx. injection Hx as <-.
  exists (Num.div (Num.of_Z a) (Num.of_Z 100)).
  split.
  - rewrite record_of_fixed by (right; exact Hnone).
    rewrite fixed_fields_lookup. reflexivity.
  - split; [reflexivity |]. apply div_100_spec. exact Ha.
Qed.

Lemma paymentAmount_is_rounded_quotient_witness :
  exists fd,
    outcome (normalize Sample.W Sample.ann) = inr (JStr "ann@x.com", fd)
    /\ fd !! "paymentAmount" = Some (JNum (Num.of_Z 50))
    /\ Num.exactly (Num.of_Z 50) 5000 100.
Proof.
  eexists.
  assert (Hn : outcome (normalize Sample.W Sample.ann) =
               inr (JStr "ann@x.com",
                    record_of Sample.W (JObj Sample.ann_metadata) (JStr "ann@x.com")
                      (JStr "pi_1") (Num.of_Z 5000))) by (vm_compute; reflexivity).
  split; [exact Hn |].
  destruct (paymentAmount_is_rounded_quotient Sample.W Sample.ann
              Sample.ann_metadata _ _ 5000 Hn) as (x & Hfd & Hx & _ & Hex).
  - vm_compute. reflexivity.
  - vm_compute. reflexivity.
  - vm_compute. reflexivity.
  - lia.
  - assert (Hx50 : x = Num.of_Z 50) by (rewrite Hx; vm_compute; reflexivity).
    rewrite Hx50 in Hfd, Hex. split; [exact Hfd |].
    apply Hex. exists 200. reflexivity.
Defined.

(** ** The raw body *)

(** X1. [getRawBody] of a stream received in two parts is the
    concatenation of the two bodies: the payload does not depend on where
    the stream is cut. *)
Theorem getRawBody_app (cs1 cs2 : list Chunk) :
  getRawBody (cs1 ++ cs2) = (getRawBody cs1 ++ getRawBody cs2)%list.
Proof.
  induction cs1 as [| c cs1 IH]; [reflexivity |].
  destruct c as [s | b]; cbn [app getRawBody]; rewrite IH, app_assoc; reflexivity.
Qed.

Lemma string_of_list_byte_app (b1 b2 : list Byte.byte) :
  String.string_of_list_byte (b1 ++ b2) =
  String.string_of_list_byte b1 ++ String.string_of_list_byte b2.
Proof.
  unfold String.string_of_list_byte. rewrite List.map_app.
  induction (List.map Ascii.ascii_of_byte b1) as [| a l IH]; [reflexivity |].
  simpl. rewrite IH. reflexivity.
Qed.

(** X2. The body is the chunks' bytes in order, a string chunk counting
    as its bytes; for a stream of string chunks, decoding the body gives
    back the concatenated text. *)
Theorem getRawBody_bytes (cs : list Chunk) (ss : list string) :
  getRawBody cs = mjoin (chunk_bytes <$> cs)
  /\ length (getRawBody cs) = sum_list (length <$> (chunk_bytes <$> cs))
  /\ String.string_of_list_byte (getRawBody (ChunkString <$> ss)) =
     foldr String.append "" ss.
Proof.
  split; [| split].
  - induction cs as [| [s | b] cs IH]; cbn; rewrite ?IH; reflexivity.
  - induction cs as [| [s | b] cs IH]; cbn; [reflexivity | |];
      rewrite length_app, IH; reflexivity.
  - induction ss as [| s ss IH]; [reflexivity |].
    cbn [fmap list_fmap getRawBody foldr]. cbn.
    rewrite string_of_list_byte_app, String.string_of_list_byte_of_string.
    cbn in IH. rewrite IH. reflexivity.
Qed.

(** ** The platform function's method guard *)

(** X3. A request to the platform function with any method other than
    POST is answered [405 Method Not Allowed] at once: the body is not
    read, the SDK is not consulted and nothing is logged, whatever the
    world. *)
Theorem non_post_is_method_not_allowed (W : World) (req : Request) :
  method req <> "POST" ->
  handler W req = ([], inr (mkResponse 405 (End "Method Not Allowed")))
  /\ forall W' chunks' sig',
       handler W' (mkRequest (method req) sig' chunks') = handler W req.
Proof.
  intros Hm.
  assert (E : String.eqb (method req) "POST" = false).
  { destruct (String.eqb (method req) "POST") eqn:E; [| reflexivity].
    apply String.eqb_eq in E. contradiction. }
  split.
  - unfold handler. rewrite E. reflexivity.
  - intros W' chunks' sig'. unfold handler. cbn [method]. rewrite E. reflexivity.
Qed.

Lemma non_post_is_method_not_allowed_witness :
  handler Sample.W (mkRequest "GET" Sample.good_sig [ChunkString "{}"]) =
  ([], inr (mkResponse 405 (End "Method Not Allowed"))).
Proof.
  apply (non_post_is_method_not_allowed Sample.W
           (mkRequest "GET" Sample.good_sig [ChunkString "{}"])).
  discriminate.
Defined.

(** ** Verified events *)

(** X4. A verified event of any kind other than
    ['checkout.session.completed'] is acknowledged with [200 {received:
    true}]; the only effect is the line ["Webhook received:"] with the
    event's type. *)
Theorem other_kinds_are_acknowledged (W : World) payload sig
    (ev : gmap string JsValue) :
  verification W payload sig = inr (JObj ev) ->
  ev !! "type" <> Some (JStr "checkout.session.completed") ->
  let result : M Response :=
    ([ConsoleLog [LStr "Webhook received:"; LVal (prop ev "type")]],
     inr (mkResponse 200 (Json (obj [("received", JBool true)])))) in
  server_webhook W payload sig = result
  /\ forall req : Request,
       method req = "POST" ->
       RawBytes (getRawBody (chunks req)) = payload ->
       stripe_signature req = sig ->
       handler W req = result.
Proof.
  intros Hv Ht result. split.
  - apply server_webhook_ignores; assumption.
  - intros req Hm <- <-. rewrite (handler_post _ _ Hm).
    apply server_webhook_ignores; assumption.
Qed.

Lemma other_kinds_are_acknowledged_witness :
  server_webhook Fixture.W_other_kind Sample.payload Sample.good_sig =
  ([ConsoleLog [LStr "Webhook received:"; LVal (JStr "payment_intent.created")]],
   inr (mkResponse 200 (Json (obj [("received", JBool true)])))).
Proof.
  destruct (other_kinds_are_acknowledged Fixture.W_other_kind Sample.payload
              Sample.good_sig
              (list_to_map [ ("type", JStr "payment_intent.created");
                             ("data", obj [("object", obj [("id", JStr "pi_1")])]) ]))
    as [H _].
  - reflexivity.
  - vm_compute. discriminate.
  - rewrite H. vm_compute. reflexivity.
Defined.

(** The trace of the guarded sink call: the sink's own trace, then one
    closing line. *)
Lemma persist_trace (W : World) (fd : gmap string JsValue) :
  trace (persist W fd) =
  (trace (storeDataInGoogleSheets W fd)
   ++ [closing_line (outcome (storeDataInGoogleSheets W fd))])%list.
Proof.
  unfold persist. rewrite trace_try_catch, outcome_bind, trace_bind.
  destruct (outcome (storeDataInGoogleSheets W fd)) as [e | v]; cbn.
  - rewrite app_nil_r. reflexivity.
  - rewrite app_nil_r. reflexivity.
Qed.

(** X5. For a verified completed checkout whose record can be built, the
    response is [200 {received: true}] whatever the sink does, and the
    request's effects are: the two progress lines, the sink's own effects,
    and one closing line, ["Payment data successfully processed"] when the
    sink returned and ["Error processing payment data:"] with the error
    when it threw. *)
Theorem sink_outcome_does_not_change_response (W : World) payload sig
    (ev d : gmap string JsValue) session email (fd : gmap string JsValue) :
  verification W payload sig = inr (JObj ev) ->
  ev !! "type" = Some (JStr "checkout.session.completed") ->
  ev !! "data" = Some (JObj d) ->
  d !! "object" = Some session ->
  outcome (normalize W session) = inr (email, fd) ->
  outcome (server_webhook W payload sig) =
    inr (mkResponse 200 (Json (obj [("received", JBool true)])))
  /\ trace (server_webhook W payload sig) =
     (ConsoleLog [LStr "Webhook received:"; LVal (JStr "checkout.session.completed")]
      :: ConsoleLog [LStr "Processing completed payment for:"; LVal email]
      :: trace (storeDataInGoogleSheets W fd)
      ++ [closing_line (outcome (storeDataInGoogleSheets W fd))])%list.
Proof.
  intros Hv Ht Hd Ho Hn.
  rewrite (server_webhook_persisted W payload sig ev d session email fd Hv Ht Hd Ho Hn).
  split; [reflexivity |]. cbn [trace fst]. rewrite persist_trace. reflexivity.
Qed.

Lemma sink_outcome_does_not_change_response_witness :
  outcome (server_webhook Sample.W_sheet_down Sample.payload Sample.good_sig) =
    inr (mkResponse 200 (Json (obj [("received", JBool true)]))).
Proof.
  destruct (sink_outcome_does_not_change_response Sample.W_sheet_down Sample.payload
              Sample.good_sig Fixture.ann_event Fixture.ann_data Sample.ann
              (JStr "ann@x.com")
              (record_of Sample.W_sheet_down (JObj Sample.ann_metadata)
                 (JStr "ann@x.com") (JStr "pi_1") (Num.of_Z 5000)))
    as [H _]; [vm_compute; reflexivity .. |].
  exact H.
Defined.

(** ** What a delivery can cause *)

Lemma count_bind_le {A B} (p : Effect -> bool) (m : M A) (k : A -> M B) (n : nat) :
  (forall a, count p (trace (k a)) <= n)%nat ->
  (count p (trace (bind m k)) <= count p (trace m) + n)%nat.
Proof.
  intros Hk. rewrite trace_bind, count_app.
  destruct (outcome m) as [e | a]; [simpl; lia |].
  specialize (Hk a). lia.
Qed.

Lemma count_silent {A} (p : Effect -> bool) (m : M A) :
  silent m -> count p (trace m) = 0%nat.
Proof. unfold silent. intros ->. reflexivity. Qed.

(** The sink never calls the payment provider. *)
Lemma store_provider_calls (W : World) (fd : gmap string JsValue) :
  provider_calls (trace (storeDataInGoogleSheets W fd)) = 0%nat.
Proof.
  unfold storeDataInGoogleSheets.
  destruct (JSON_parse W _) as [e | credentials]; [reflexivity |].
  destruct credentials as [| | b | x | s | l | c]; try reflexivity.
  rewrite bind_await_ok. cbn [getProp]. rewrite bind_ret.
  destruct (truthy (prop c "client_email")); [| reflexivity].
  cbn [negb]. rewrite bind_ret.
  destruct (truthy (prop c "private_key")); [| reflexivity].
  cbn [negb].
  destruct (truthy (env_value (SPREADSHEET_ID (env W)))); [| reflexivity].
  cbn [negb].
  destruct (values_append W _ _ _) as [e | response]; [reflexivity |].
  destruct response; reflexivity.
Qed.

Lemma persist_provider_calls (W : World) (fd : gmap string JsValue) :
  provider_calls (trace (persist W fd)) = 0%nat.
Proof.
  rewrite persist_trace. unfold provider_calls. rewrite count_app.
  fold (provider_calls (trace (storeDataInGoogleSheets W fd))).
  rewrite store_provider_calls.
  destruct (outcome (storeDataInGoogleSheets W fd)); reflexivity.
Qed.

Lemma process_event_counts (W : World) (event : JsValue) :
  (sink_calls (trace (process_event W event)) <= 1)%nat
  /\ provider_calls (trace (process_event W event)) = 0%nat.
Proof.
  assert (Hgen : forall p n,
            (forall fd, count p (trace (persist W fd)) <= n)%nat ->
            p (ConsoleLog []) = false ->
            (forall args, p (ConsoleLog args) = p (ConsoleLog [])) ->
            (count p (trace (process_event W event)) <= n)%nat).
  { intros p n Hp Hlog Hargs. unfold process_event.
    eapply Nat.le_trans; [apply (count_bind_le p _ _ n) |].
    - intros type.
      eapply Nat.le_trans; [apply (count_bind_le p _ _ 0) |].
      + intros _. simpl. lia.
      + rewrite Nat.add_0_r.
        destruct (strict_eq_str type "checkout.session.completed");
          [| simpl; lia].
        eapply Nat.le_trans; [apply (count_bind_le p _ _ n) |].
        * intros data.
          eapply Nat.le_trans; [apply (count_bind_le p _ _ n) |].
          -- intros session.
             eapply Nat.le_trans; [apply (count_bind_le p _ _ n) |].
             ++ intros [customerEmail formData].
                eapply Nat.le_trans; [apply (count_bind_le p _ _ n) |].
                ** intros _. apply Hp.
                ** unfold console_log, emit. cbn [trace fst count].
                   rewrite Hargs, Hlog. lia.
             ++ rewrite (normalize_trace W session). simpl. lia.
          -- rewrite getProp_trace. simpl. lia.
        * rewrite getProp_trace. simpl. lia.
    - rewrite getProp_trace. simpl. lia. }
  split.
  - apply (Hgen is_sink_call 1%nat); [| reflexivity | reflexivity].
    intros fd. fold (sink_calls (trace (persist W fd))).
    rewrite persist_sink_calls. apply store_sink_calls_le.
  - apply Nat.le_0_r. apply (Hgen is_provider_call 0%nat); [| reflexivity | reflexivity].
    intros fd. fold (provider_calls (trace (persist W fd))).
    rewrite persist_provider_calls. lia.
Qed.

(** X6. Whatever is delivered, one webhook request appends at most one
    row to the sheet and never calls the payment provider; the same holds
    for the platform function. *)
Theorem delivery_appends_at_most_one_row (W : World) payload sig (req : Request) :
  (sink_calls (trace (server_webhook W payload sig)) <= 1)%nat
  /\ provider_calls (trace (server_webhook W payload sig)) = 0%nat
  /\ (sink_calls (trace (handler W req)) <= 1)%nat
  /\ provider_calls (trace (handler W req)) = 0%nat.
Proof.
  assert (Hs : forall payload sig,
            (sink_calls (trace (server_webhook W payload sig)) <= 1)%nat
            /\ provider_calls (trace (server_webhook W payload sig)) = 0%nat).
  { clear. intros payload sig. unfold server_webhook, verify.
    destruct (constructEvent W payload sig _) as [err | event]; [split; cbn; lia |].
    destruct (process_event_counts W event) as [H1 H2].
    destruct event; cbn [await getProp];
      try (split; cbn; lia);
      rewrite ?bind_await_ok; cbn [getProp bind try_catch console_log emit ret throw];
      destruct (process_event W _) as [tr r]; cbn in *; split; lia. }
  split; [apply Hs |]. split; [apply Hs |].
  destruct (String.eqb (method req) "POST") eqn:Hm.
  - apply String.eqb_eq in Hm. rewrite (handler_post _ _ Hm).
    split; apply Hs.
  - rewrite handler_not_post; [split; cbn; lia |].
    intros Heq. apply String.eqb_eq in Heq. congruence.
Qed.

(** X7. A signed payload that is not an object.  When the SDK returns
    [null] or [undefined], reading [event.type] throws inside the
    verification block, so the delivery is answered 400 like a failed
    verification; when it returns a boolean, a number, a string or an
    array, the event has no [type] and is acknowledged without any
    processing. *)
Theorem non_object_event (W : World) payload sig event :
  verification W payload sig = inr event ->
  (forall ev, event <> JObj ev) ->
  if nullish event then
    exists err,
      err_name err = "TypeError"
      /\ server_webhook W payload sig =
         ([ConsoleError [LStr "Webhook signature verification failed:";
                         LStr (err_message err)]],
          inr (mkResponse 400 (Send ("Webhook Error: " ++ err_message err))))
  else
    server_webhook W payload sig =
    ([ConsoleLog [LStr "Webhook received:"; LVal JUndefined]],
     inr (mkResponse 200 (Json (obj [("received", JBool true)])))).
Proof.
  unfold verification, server_webhook, verify. intros -> Hne.
  destruct event; cbn [nullish];
    try reflexivity;
    try (eexists; split; [| reflexivity]; reflexivity).
  exfalso. eapply Hne. reflexivity.
Qed.

Lemma non_object_event_witness :
  exists err,
    err_name err = "TypeError"
    /\ outcome (server_webhook Fixture.W_null_event Sample.payload Sample.good_sig) =
       inr (mkResponse 400 (Send ("Webhook Error: " ++ err_message err))).
Proof.
  destruct (non_object_event Fixture.W_null_event Sample.payload Sample.good_sig JNull)
    as (err & Hname & H).
  - reflexivity.
  - discriminate.
  - exists err. split; [exact Hname |]. rewrite H. reflexivity.
Defined.

(** The block throws a [TypeError] on every session that is not
    readable. *)
Lemma normalize_unreadable (W : World) (session : JsValue) :
  session_readable session = false ->
  exists e, err_name e = "TypeError" /\ outcome (normalize W session) = inl e.
Proof.
  intros Hr. unfold normalize.
  destruct session as [| | b | x | t | l | s];
    try (eexists; split; [| reflexivity]; reflexivity).
  cbn [getProp]. rewrite bind_ret. cbn [session_readable] in Hr.
  destruct (prop s "metadata") as [| | b | x | t | l | m] eqn:Em;
    try (eexists; split; [| reflexivity]; reflexivity);
    cbn [requireObjectCoercible nullish negb andb] in *;
    rewrite bind_ret, bind_ret;
    (destruct (prop s "customer_details") as [| | b' | x' | t' | l' | m'];
     try discriminate Hr;
     eexists; (split; [| reflexivity]); reflexivity).
Qed.

(** X8. For a verified completed checkout whose session is not readable
    (it is not an object, or its [metadata] or [customer_details] is
    missing or [null]), the handler throws a [TypeError] after the line
    ["Webhook received:"]: no response is sent, nothing is written to the
    sheet and no error is logged. *)
Theorem unreadable_session_is_not_answered (W : World) payload sig
    (ev d : gmap string JsValue) session :
  verification W payload sig = inr (JObj ev) ->
  ev !! "type" = Some (JStr "checkout.session.completed") ->
  ev !! "data" = Some (JObj d) ->
  d !! "object" = Some session ->
  session_readable session = false ->
  exists e,
    err_name e = "TypeError"
    /\ server_webhook W payload sig =
       ([ConsoleLog [LStr "Webhook received:"; LVal (JStr "checkout.session.completed")]],
        inl e)
    /\ sink_calls (trace (server_webhook W payload sig)) = 0%nat
    /\ error_logs (trace (server_webhook W payload sig)) = 0%nat.
Proof.
  intros Hv Ht Hd Ho Hr.
  destruct (normalize_unreadable W session Hr) as (e & Hname & He).
  exists e. split; [exact Hname |].
  rewrite (server_webhook_throws W payload sig ev d session e Hv Ht Hd Ho He).
  repeat split.
Qed.

Lemma unreadable_session_is_not_answered_witness :
  exists e,
    outcome (server_webhook Fixture.W_without_metadata Sample.payload Sample.good_sig)
    = inl e.
Proof.
  destruct (unreadable_session_is_not_answered Fixture.W_without_metadata
              Sample.payload Sample.good_sig
              (list_to_map [ ("type", JStr "checkout.session.completed");
                             ("data", obj [("object", JObj Fixture.session_without_metadata)]) ])
              (list_to_map [("object", JObj Fixture.session_without_metadata)])
              (JObj Fixture.session_without_metadata))
    as (e & _ & H & _); [vm_compute; reflexivity .. |].
  exists e. rewrite H. reflexivity.
Defined.

(** ** The fixed fields *)

(** X9. In every record produced from a session [s] whose metadata is an
    object, each of [email], [paymentStatus], [paymentId] and [timestamp]
    that the metadata does not define holds the computed value: the
    e-mail of the customer details, the text ["completed"], the session's
    [payment_intent], and the clock reading at processing time (not a
    time taken from the event). *)
Theorem fixed_fields_of_record (W : World) (s md : gmap string JsValue) email
    (fd : gmap string JsValue) :
  outcome (normalize W (JObj s)) = inr (email, fd) ->
  prop s "metadata" = JObj md ->
  outcome (getProp (prop s "customer_details") "email") = inr email
  /\ (md !! "email" = None -> fd !! "email" = Some email)
  /\ (md !! "paymentStatus" = None -> fd !! "paymentStatus" = Some (JStr "completed"))
  /\ (md !! "paymentId" = None -> fd !! "paymentId" = Some (prop s "payment_intent"))
  /\ (md !! "timestamp" = None -> fd !! "timestamp" = Some (JStr (now W))).
Proof.
  intros Hn Hmd.
  destruct (normalize_inv _ _ _ _ Hn) as (s' & x & Hs & _ & Hem & _ & ->).
  injection Hs as <-. rewrite Hmd. rewrite Hem.
  split; [reflexivity |].
  repeat split; intros Hnone;
    rewrite record_of_fixed by (right; exact Hnone);
    rewrite fixed_fields_lookup; reflexivity.
Qed.

Lemma fixed_fields_of_record_witness :
  let fd := record_of Sample.W (JObj Sample.ann_metadata) (JStr "ann@x.com")
              (JStr "pi_1") (Num.of_Z 5000) in
  fd !! "email" = Some (JStr "ann@x.com")
  /\ fd !! "paymentStatus" = Some (JStr "completed")
  /\ fd !! "paymentId" = Some (JStr "pi_1")
  /\ fd !! "timestamp" = Some (JStr "2024-05-01T12:00:00.000Z").
Proof.
  intros fd.
  destruct (fixed_fields_of_record Sample.W Fixture.ann_session Sample.ann_metadata
              (JStr "ann@x.com") fd) as (_ & H1 & H2 & H3 & H4).
  - vm_compute. reflexivity.
  - vm_compute. reflexivity.
  - split; [apply H1; vm_compute; reflexivity |].
    split; [apply H2; vm_compute; reflexivity |].
    split; [rewrite H3 by (vm_compute; reflexivity); vm_compute; reflexivity |].
    apply H4. vm_compute. reflexivity.
Defined.

(** ** Amounts that are not numbers *)

(** X10. A session without [amount_total] does not make the
    normalisation fail: for a session with an object as metadata and with
    customer details, the block returns a record, the division is
    [undefined / 100], so the record's [paymentAmount] is [NaN] (unless the
    metadata defines that key); with [amount_total: null] it is [+0]. *)
Theorem missing_amount_is_NaN (W : World) (s md : gmap string JsValue) email :
  prop s "metadata" = JObj md ->
  md !! "paymentAmount" = None ->
  getProp (prop s "customer_details") "email" = ret email ->
  (s !! "amount_total" = None ->
   exists fd,
     normalize W (JObj s) = ret (email, fd)
     /\ fd !! "paymentAmount" = Some (JNum S754_nan))
  /\ (s !! "amount_total" = Some JNull ->
      exists fd,
        normalize W (JObj s) = ret (email, fd)
        /\ fd !! "paymentAmount" = Some (JNum (S754_zero false))).
Proof.
  intros Hmd Hnone Hc.
  assert (Hm : requireObjectCoercible (prop s "metadata") = ret tt)
    by (rewrite Hmd; reflexivity).
  assert (Hfd : forall x,
            record_of W (prop s "metadata") email (prop s "payment_intent") x
              !! "paymentAmount" = Some (JNum (Num.div x (Num.of_Z 100)))).
  { intros x. rewrite Hmd. rewrite record_of_fixed by (right; exact Hnone).
    rewrite fixed_fields_lookup. reflexivity. }
  split; intros Ha.
  - exists (record_of W (prop s "metadata") email (prop s "payment_intent") S754_nan).
    split; [| apply Hfd].
    apply normalize_ok; [exact Hm | exact Hc |].
    rewrite (prop_absent _ _ Ha). reflexivity.
  - exists (record_of W (prop s "metadata") email (prop s "payment_intent")
              (S754_zero false)).
    split; [| apply Hfd].
    apply normalize_ok; [exact Hm | exact Hc |].
    rewrite (prop_lookup _ _ _ Ha). reflexivity.
Qed.

Lemma missing_amount_is_NaN_witness :
  exists fd,
    normalize Sample.W (JObj Fixture.session_without_amount)
    = ret (JStr "ann@x.com", fd)
    /\ fd !! "paymentAmount" = Some (JNum S754_nan).
Proof.
  destruct (missing_amount_is_NaN Sample.W Fixture.session_without_amount
              Sample.ann_metadata (JStr "ann@x.com")) as [H _].
  - vm_compute. reflexivity.
  - vm_compute. reflexivity.
  - vm_compute. reflexivity.
  - apply H. vm_compute. reflexivity.
Defined.

(** ** From the session to the row *)

Lemma prop_record_of_extra (W : World) (md : gmap string JsValue) email pi x (k : string) :
  k ∈ extra_names ->
  prop (record_of W (JObj md) email pi x) k = prop md k.
Proof.
  intros Hk.
  assert (Hne : k <> "customerName").
  { intros ->. unfold extra_names in Hk.
    repeat (apply elem_of_cons in Hk as [Hk | Hk]; [discriminate |]).
    apply elem_of_nil in Hk. exact Hk. }
  destruct (md !! k) as [v |] eqn:Ek.
  - unfold prop at 1.
    rewrite (record_of_passthrough W (JObj md) email pi x k v Hne Ek).
    rewrite (prop_lookup _ _ _ Ek). reflexivity.
  - unfold prop at 1. rewrite record_of_fixed by (right; exact Ek).
    rewrite fixed_fields_lookup, (prop_absent _ _ Ek).
    unfold extra_names in Hk.
    repeat (apply elem_of_cons in Hk as [-> | Hk]; [reflexivity |]).
    apply elem_of_nil in Hk. contradiction.
Qed.

(** X11. The row written for a record built from metadata [md] that
    defines none of the six leading column names: the clock reading, the
    metadata's [customerName], the customer's e-mail, ["completed"], the
    payment intent, the amount divided by 100, and then the metadata's own
    [preferences], [notes], [age], [primaryConcern], [additionalConcerns],
    [goals] and [photoCount] (['']  where missing or falsy). *)
Theorem row_of_normalized_record (W : World) (md : gmap string JsValue)
    email pi x :
  (forall k, k ∈ leading_names -> md !! k = None) ->
  row_values (record_of W (JObj md) email pi x) =
  ([ JStr (now W); prop md "customerName"; email; JStr "completed"; pi;
     JNum (Num.div x (Num.of_Z 100)) ]
   ++ ((fun k => js_or (prop md k) (JStr "")) <$> extra_names))%list.
Proof.
  intros Hfree.
  assert (Hlead : forall k, k ∈ leading_names ->
            prop (record_of W (JObj md) email pi x) k =
            default JUndefined
              (fixed_fields W (prop md "customerName") email pi
                 (Num.div x (Num.of_Z 100)) !! k)).
  { intros k Hk. unfold prop at 1.
    rewrite record_of_fixed by (right; apply Hfree, Hk). reflexivity. }
  unfold row_values.
  rewrite !Hlead by (apply list_elem_of_In; simpl; tauto).
  rewrite !prop_record_of_extra by (apply list_elem_of_In; simpl; tauto).
  rewrite !fixed_fields_lookup. reflexivity.
Qed.

Lemma row_of_normalized_record_witness :
  row_values (record_of Sample.W (JObj Sample.ann_metadata) (JStr "ann@x.com")
                (JStr "pi_1") (Num.of_Z 5000)) =
  [ JStr "2024-05-01T12:00:00.000Z"; JStr "Ann"; JStr "ann@x.com";
    JStr "completed"; JStr "pi_1"; JNum (Num.of_Z 50);
    JStr ""; JStr "vip"; JStr ""; JStr ""; JStr ""; JStr ""; JStr "" ].
Proof.
  rewrite (row_of_normalized_record Sample.W Sample.ann_metadata).
  - vm_compute. reflexivity.
  - intros k Hk. unfold leading_names in Hk.
    repeat (apply elem_of_cons in Hk as [-> | Hk]; [vm_compute; reflexivity |]).
    apply elem_of_nil in Hk. contradiction.
Defined.

(** ** The sink's paths *)

Lemma store_configured (W : World) (c fd : gmap string JsValue) :
  sink_configured W c ->
  storeDataInGoogleSheets W fd =
  let call := SheetsAppend (prop c "client_email") (prop c "private_key")
                (sink_request W fd) in
  let failed e :=
    ([call; ConsoleError [LStr "Error storing data in Google Sheets:"; LErr e]],
     inl e) in
  match values_append W (prop c "client_email") (prop c "private_key")
          (sink_request W fd) with
  | inl e => failed e
  | inr response =>
      match outcome (getProp response "data") with
      | inl e => failed e
      | inr data =>
          ([call; ConsoleLog [LStr "Data stored in Google Sheets successfully";
                              LVal data]],
           inr data)
      end
  end.
Proof.
  intros (Hp & Hce & Hpk & Hid). unfold storeDataInGoogleSheets.
  unfold credentials_source in Hp. rewrite Hp, bind_await_ok.
  cbn [getProp]. rewrite bind_ret, Hce. cbn [negb]. rewrite bind_ret, Hpk.
  cbn [negb]. rewrite Hid. cbn [negb]. fold (sink_request W fd). cbv zeta.
  destruct (values_append W _ _ _) as [e | response]; [reflexivity |].
  destruct response; reflexivity.
Qed.

(** X12. End to end: for a verified completed checkout with a readable
    session and a configured sink, exactly one row is appended, right
    after the two progress lines, and it is the row of the record built
    from that session, sent with the configured credentials to the
    configured sheet; the response is [200 {received: true}]. *)
Theorem completed_checkout_appends_its_row (W : World) payload sig
    (ev d s c : gmap string JsValue) email x :
  verification W payload sig = inr (JObj ev) ->
  ev !! "type" = Some (JStr "checkout.session.completed") ->
  ev !! "data" = Some (JObj d) ->
  d !! "object" = Some (JObj s) ->
  requireObjectCoercible (prop s "metadata") = ret tt ->
  getProp (prop s "customer_details") "email" = ret email ->
  ToNumber (toNumberOther W) (prop s "amount_total") = ret x ->
  sink_configured W c ->
  let formData := record_of W (prop s "metadata") email (prop s "payment_intent") x in
  exists rest,
    trace (server_webhook W payload sig) =
      (ConsoleLog [LStr "Webhook received:"; LVal (JStr "checkout.session.completed")]
       :: ConsoleLog [LStr "Processing completed payment for:"; LVal email]
       :: SheetsAppend (prop c "client_email") (prop c "private_key")
            (append_request (env_value (SPREADSHEET_ID (env W)))
               (JArr [JArr (row_values formData)]))
       :: rest)
    /\ sink_calls rest = 0%nat
    /\ sink_calls (trace (server_webhook W payload sig)) = 1%nat
    /\ outcome (server_webhook W payload sig) =
       inr (mkResponse 200 (Json (obj [("received", JBool true)]))).
Proof.
  intros Hv Ht Hd Ho Hm Hc Hx Hcfg formData.
  assert (Hn : outcome (normalize W (JObj s)) = inr (email, formData)).
  { rewrite (normalize_ok W s email x Hm Hc Hx). reflexivity. }
  rewrite (server_webhook_persisted W payload sig ev d (JObj s) email formData
             Hv Ht Hd Ho Hn).
  cbn [trace outcome fst snd]. rewrite persist_trace.
  rewrite (store_configured W c formData Hcfg). cbv zeta.
  fold (sink_request W formData).
  destruct (values_append W _ _ _) as [e | response].
  - eexists. split; [reflexivity |]. repeat split.
  - destruct (outcome (getProp response "data")) as [e | data];
      (eexists; split; [reflexivity |]; repeat split).
Qed.

Lemma completed_checkout_appends_its_row_witness :
  sink_calls (trace (server_webhook Sample.W Sample.payload Sample.good_sig)) = 1%nat.
Proof.
  destruct (completed_checkout_appends_its_row Sample.W Sample.payload Sample.good_sig
              Fixture.ann_event Fixture.ann_data Fixture.ann_session
              Fixture.credentials (JStr "ann@x.com") (Num.of_Z 5000))
    as (rest & _ & _ & H & _).
  - vm_compute. reflexivity.
  - vm_compute. reflexivity.
  - vm_compute. reflexivity.
  - vm_compute. reflexivity.
  - vm_compute. reflexivity.
  - vm_compute. reflexivity.
  - vm_compute. reflexivity.
  - repeat split; vm_compute; reflexivity.
  - exact H.
Defined.

(** X13. When the credentials parse to an object that lacks a truthy
    [client_email] or [private_key] (in particular when the variable is
    unset, so that ['{}'] is parsed), the sink logs ["Missing or invalid
    Google credentials"] and returns [undefined]: it neither throws nor
    appends, and the guarded call then still logs ["Payment data
    successfully processed"]. *)
Theorem missing_credentials_are_a_logged_no_op (W : World)
    (c fd : gmap string JsValue) :
  JSON_parse W (credentials_source W) = inr (JObj c) ->
  truthy (prop c "client_email") && truthy (prop c "private_key") = false ->
  storeDataInGoogleSheets W fd =
    ([ConsoleError [LStr "Missing or invalid Google credentials"]], inr JUndefined)
  /\ persist W fd =
     ([ConsoleError [LStr "Missing or invalid Google credentials"];
       ConsoleLog [LStr "Payment data successfully processed"]], inr tt).
Proof.
  intros Hp Hf.
  assert (Hs : storeDataInGoogleSheets W fd =
    ([ConsoleError [LStr "Missing or invalid Google credentials"]], inr JUndefined)).
  { unfold storeDataInGoogleSheets. unfold credentials_source in Hp.
    rewrite Hp, bind_await_ok. cbn [getProp]. rewrite bind_ret.
    destruct (truthy (prop c "client_email")); [| reflexivity].
    cbn [negb andb] in *. rewrite bind_ret, Hf. reflexivity. }
  split; [exact Hs |]. unfold persist. rewrite Hs. reflexivity.
Qed.

Lemma missing_credentials_are_a_logged_no_op_witness :
  GOOGLE_APPLICATION_CREDENTIALS_JSON (env Fixture.W_no_credentials) = None
  /\ persist Fixture.W_no_credentials Sample.record_with_company =
     ([ConsoleError [LStr "Missing or invalid Google credentials"];
       ConsoleLog [LStr "Payment data successfully processed"]], inr tt).
Proof.
  split; [reflexivity |].
  apply (missing_credentials_are_a_logged_no_op Fixture.W_no_credentials ∅).
  - reflexivity.
  - reflexivity.
Defined.

(** X14. With usable credentials but [SPREADSHEET_ID] unset or empty, the
    sink logs ["Missing spreadsheet ID"] and returns [undefined] without
    throwing or appending; the guarded call then logs success. *)
Theorem missing_spreadsheet_id_is_a_logged_no_op (W : World)
    (c fd : gmap string JsValue) :
  JSON_parse W (credentials_source W) = inr (JObj c) ->
  truthy (prop c "client_email") = true ->
  truthy (prop c "private_key") = true ->
  SPREADSHEET_ID (env W) = None \/ SPREADSHEET_ID (env W) = Some "" ->
  storeDataInGoogleSheets W fd =
    ([ConsoleError [LStr "Missing spreadsheet ID"]], inr JUndefined)
  /\ persist W fd =
     ([ConsoleError [LStr "Missing spreadsheet ID"];
       ConsoleLog [LStr "Payment data successfully processed"]], inr tt).
Proof.
  intros Hp Hce Hpk Hid.
  assert (Hs : storeDataInGoogleSheets W fd =
    ([ConsoleError [LStr "Missing spreadsheet ID"]], inr JUndefined)).
  { unfold storeDataInGoogleSheets. unfold credentials_source in Hp.
    rewrite Hp, bind_await_ok. cbn [getProp].
    rewrite bind_ret, Hce. cbn [negb]. rewrite bind_ret, Hpk. cbn [negb].
    destruct Hid as [-> | ->]; reflexivity. }
  split; [exact Hs |]. unfold persist. rewrite Hs. reflexivity.
Qed.

Lemma missing_spreadsheet_id_is_a_logged_no_op_witness :
  storeDataInGoogleSheets Fixture.W_no_sheet Sample.record_with_company =
  ([ConsoleError [LStr "Missing spreadsheet ID"]], inr JUndefined).
Proof.
  apply (missing_spreadsheet_id_is_a_logged_no_op Fixture.W_no_sheet
           Fixture.credentials Sample.record_with_company).
  - reflexivity.
  - reflexivity.
  - reflexivity.
  - left. reflexivity.
Defined.

(** X15. The sink never throws silently: whenever it throws an error, the
    last thing it did was to log that same error under ["Error storing
    data in Google Sheets:"]; the guarded call then logs it a second time
    under ["Error processing payment data:"] and does not throw. *)
Theorem sink_failure_is_logged_twice (W : World) (fd : gmap string JsValue) e :
  outcome (storeDataInGoogleSheets W fd) = inl e ->
  exists tr,
    trace (storeDataInGoogleSheets W fd) =
      (tr ++ [ConsoleError [LStr "Error storing data in Google Sheets:"; LErr e]])%list
    /\ trace (persist W fd) =
       (tr ++ [ConsoleError [LStr "Error storing data in Google Sheets:"; LErr e];
               ConsoleError [LStr "Error processing payment data:"; LErr e]])%list
    /\ outcome (persist W fd) = inr tt.
Proof.
  intros He.
  assert (Hs : exists tr, trace (storeDataInGoogleSheets W fd) =
    (tr ++ [ConsoleError [LStr "Error storing data in Google Sheets:"; LErr e]])%list).
  { revert He. unfold storeDataInGoogleSheets.
    match goal with |- context [try_catch ?b ?h] => set (body := b) end.
    rewrite outcome_try_catch, trace_try_catch.
    destruct (outcome body) as [e' | v]; [| discriminate].
    cbn. intros [= ->]. exists (trace body). reflexivity. }
  destruct Hs as (tr & Htr). exists tr.
  split; [exact Htr |]. split; [| apply persist_outcome].
  rewrite persist_trace, He, Htr, <- app_assoc. reflexivity.
Qed.

Lemma sink_failure_is_logged_twice_witness :
  trace (persist Fixture.W_bad_credentials Sample.record_with_company) =
  [ConsoleError [LStr "Error storing data in Google Sheets:"; LErr Fixture.not_json];
   ConsoleError [LStr "Error processing payment data:"; LErr Fixture.not_json]].
Proof.
  destruct (sink_failure_is_logged_twice Fixture.W_bad_credentials
              Sample.record_with_company Fixture.not_json)
    as (tr & Hs & Hp & _).
  - reflexivity.
  - assert (tr = []) as ->.
    { change (trace (storeDataInGoogleSheets Fixture.W_bad_credentials
                       Sample.record_with_company))
        with ([] ++ [ConsoleError [LStr "Error storing data in Google Sheets:";
                                    LErr Fixture.not_json]])%list in Hs.
      apply app_inv_tail in Hs. symmetry. exact Hs. }
    exact Hp.
Defined.

(** X16. A configured sink reports what the append call did: when the
    call is rejected with an error, the sink throws that very error after
    logging it; when it resolves with a response object, the sink logs and
    returns the response's [data].  Either way the request was sent. *)
Theorem configured_sink_reports_the_append (W : World) (c fd : gmap string JsValue) :
  sink_configured W c ->
  let call := SheetsAppend (prop c "client_email") (prop c "private_key")
                (sink_request W fd) in
  let answer := values_append W (prop c "client_email") (prop c "private_key")
                  (sink_request W fd) in
  (forall e, answer = inl e ->
     storeDataInGoogleSheets W fd =
     ([call; ConsoleError [LStr "Error storing data in Google Sheets:"; LErr e]],
      inl e))
  /\ (forall r : gmap string JsValue, answer = inr (JObj r) ->
        storeDataInGoogleSheets W fd =
        ([call; ConsoleLog [LStr "Data stored in Google Sheets successfully";
                            LVal (prop r "data")]],
         inr (prop r "data"))).
Proof.
  intros Hcfg call answer.
  pose proof (store_configured W c fd Hcfg) as Hs. cbv zeta in Hs.
  fold answer in Hs. fold call in Hs.
  split.
  - intros e He. rewrite Hs, He. reflexivity.
  - intros r Hr. rewrite Hs, Hr. reflexivity.
Qed.

Lemma configured_sink_reports_the_append_witness :
  outcome (storeDataInGoogleSheets Sample.W_sheet_down Sample.record_with_company) =
  inl Fixture.permission_denied.
Proof.
  destruct (configured_sink_reports_the_append Sample.W_sheet_down Fixture.credentials
              Sample.record_with_company) as [H _].
  - repeat split; vm_compute; reflexivity.
  - rewrite (H Fixture.permission_denied); reflexivity.
Defined.

(** ** Session creation: every request is answered *)

Lemma create_nullish (W : World) (reqBody : JsValue) :
  nullish reqBody = true ->
  exists e,
    err_name e = "TypeError"
    /\ create_checkout_session W reqBody =
       ([ConsoleLog [LStr "Received checkout request:"; LVal reqBody];
         ConsoleError [LStr "Error creating checkout session:"; LErr e]],
        inr (mkResponse 500 (Json (obj [("error", JStr (err_message e))])))).
Proof.
  destruct reqBody; try discriminate; intros _;
    (eexists; split; [| reflexivity]; reflexivity).
Qed.

Lemma nullish_coercible (v : JsValue) :
  nullish v = false -> requireObjectCoercible v = ret tt.
Proof. destruct v; first [discriminate | reflexivity]. Qed.

(** X17. For a request with a body, the answer is 400 exactly when one of
    [productName], [productPrice], [customerEmail] is falsy: missing,
    [null], [false], [0], [NaN] or the empty string. *)
Theorem refused_iff_a_required_field_is_falsy (W : World) (reqBody : JsValue) :
  requireObjectCoercible reqBody = ret tt ->
  exists response,
    outcome (create_checkout_session W reqBody) = inr response
    /\ (status response = 400 <->
        truthy (pick reqBody "productName") && truthy (pick reqBody "productPrice")
          && truthy (pick reqBody "customerEmail") = false).
Proof.
  intros Hc.
  destruct (truthy (pick reqBody "productName") && truthy (pick reqBody "productPrice")
            && truthy (pick reqBody "customerEmail")) eqn:E.
  - apply andb_prop in E as [E He]. apply andb_prop in E as [Hn Hp].
    rewrite (create_forwarded W reqBody Hn Hp He). cbv zeta.
    destruct (sessions_create W (params_of reqBody)) as [e | session].
    + eexists. split; [reflexivity |]. cbn. split; discriminate.
    + destruct (outcome (getProp session "id"));
        (eexists; split; [reflexivity |]; cbn; split; discriminate).
  - rewrite (create_refused W reqBody Hc E).
    eexists. split; [reflexivity |]. split; reflexivity.
Qed.

Lemma refused_iff_a_required_field_is_falsy_witness :
  exists response,
    outcome (create_checkout_session Sample.W Sample.free_order) = inr response
    /\ status response = 400.
Proof.
  destruct (refused_iff_a_required_field_is_falsy Sample.W Sample.free_order)
    as (response & Hr & Hiff).
  - reflexivity.
  - exists response. split; [exact Hr |]. apply Hiff. vm_compute. reflexivity.
Defined.

(** X18. The session-creation route answers every request: it never
    throws, its status is 200, 400 or 500, it calls the payment provider at
    most once and it never touches the sheet. *)
Theorem create_checkout_session_always_answers (W : World) (reqBody : JsValue) :
  exists response,
    outcome (create_checkout_session W reqBody) = inr response
    /\ (status response = 200 \/ status response = 400 \/ status response = 500)
    /\ (provider_calls (trace (create_checkout_session W reqBody)) <= 1)%nat
    /\ sink_calls (trace (create_checkout_session W reqBody)) = 0%nat.
Proof.
  destruct (nullish reqBody) eqn:Hnull.
  - destruct (create_nullish W reqBody Hnull) as (e & _ & ->).
    eexists. split; [reflexivity |]. cbn. split; [tauto | split; [lia | reflexivity]].
  - pose proof (nullish_coercible _ Hnull) as Hc.
    destruct (truthy (pick reqBody "productName") && truthy (pick reqBody "productPrice")
              && truthy (pick reqBody "customerEmail")) eqn:E.
    + apply andb_prop in E as [E He]. apply andb_prop in E as [Hn Hp].
      rewrite (create_forwarded W reqBody Hn Hp He). cbv zeta.
      destruct (sessions_create W (params_of reqBody)) as [e | session].
      * eexists. split; [reflexivity |]. cbn. split; [tauto | split; [lia | reflexivity]].
      * destruct (outcome (getProp session "id"));
          (eexists; split; [reflexivity |]; cbn;
           split; [tauto | split; [lia | reflexivity]]).
    + rewrite (create_refused W reqBody Hc E).
      eexists. split; [reflexivity |]. cbn. split; [tauto | split; [lia | reflexivity]].
Qed.

(** X19. A request without a body ([req.body] [undefined] or [null])
    fails in the destructuring, inside the [try]: it is answered 500 with
    the [TypeError]'s message, not 400, and the provider is not called. *)
Theorem bodyless_request_is_a_server_error (W : World) (reqBody : JsValue) :
  nullish reqBody = true ->
  exists e,
    err_name e = "TypeError"
    /\ outcome (create_checkout_session W reqBody) =
       inr (mkResponse 500 (Json (obj [("error", JStr (err_message e))])))
    /\ provider_calls (trace (create_checkout_session W reqBody)) = 0%nat
    /\ error_logs (trace (create_checkout_session W reqBody)) = 1%nat.
Proof.
  intros Hnull. destruct (create_nullish W reqBody Hnull) as (e & Hname & ->).
  exists e. repeat split. exact Hname.
Qed.

Lemma bodyless_request_is_a_server_error_witness :
  exists e,
    outcome (create_checkout_session Sample.W JUndefined) =
    inr (mkResponse 500 (Json (obj [("error", JStr (err_message e))]))).
Proof.
  destruct (bodyless_request_is_a_server_error Sample.W JUndefined)
    as (e & _ & H & _).
  - reflexivity.
  - exists e. exact H.
Defined.

(** ** The metadata sent to the provider *)

Lemma params_of_metadata (reqBody : JsValue) :
  field (params_of reqBody) "metadata" =
  Some (JObj (ownProps (pick reqBody "metadata")
              ∪ {["customerName" := pick reqBody "customerName"]})).
Proof.
  unfold params_of, session_params, obj, field.
  cbn [list_to_map foldr curry fst snd uncurry].
  repeat (rewrite lookup_insert_ne by discriminate).
  apply lookup_insert_eq.
Qed.

(** X20. The metadata attached to the checkout session is the request's
    [metadata] with [customerName] added: every key of the request's
    metadata is sent unchanged, nothing else but [customerName] is added,
    and [customerName] is the request's field unless the metadata has a
    key of that name, which then wins. *)
Theorem metadata_sent_to_provider (reqBody : JsValue) :
  exists meta : gmap string JsValue,
    field (params_of reqBody) "metadata" = Some (JObj meta)
    /\ (forall k v, ownProps (pick reqBody "metadata") !! k = Some v ->
                    meta !! k = Some v)
    /\ (ownProps (pick reqBody "metadata") !! "customerName" = None ->
        meta !! "customerName" = Some (pick reqBody "customerName"))
    /\ (forall k, k <> "customerName" ->
                  ownProps (pick reqBody "metadata") !! k = None ->
                  meta !! k = None).
Proof.
  eexists. split; [apply params_of_metadata |].
  split; [| split].
  - intros k v Hk. apply lookup_union_Some_l. exact Hk.
  - intros Hnone. rewrite lookup_union_r by exact Hnone. apply lookup_singleton_eq.
  - intros k Hk Hnone. rewrite lookup_union_r by exact Hnone.
    apply lookup_singleton_ne. congruence.
Qed.

(** X21. From the form to the record.  When the completed session echoes
    the metadata that session creation sent for a request whose
    [metadata] is an object [m], every field of [m] other than
    [customerName] is in the record unchanged, and, if [m] defines neither
    [customerName] nor [name], the record's [name] is the request's
    [customerName]. *)
Theorem form_fields_reach_the_record (W : World) (reqBody : JsValue)
    (m s : gmap string JsValue) email (fd : gmap string JsValue) :
  pick reqBody "metadata" = JObj m ->
  field (params_of reqBody) "metadata" = Some (prop s "metadata") ->
  outcome (normalize W (JObj s)) = inr (email, fd) ->
  (forall k v, k <> "customerName" -> m !! k = Some v -> fd !! k = Some v)
  /\ (m !! "customerName" = None -> m !! "name" = None ->
      fd !! "name" = Some (pick reqBody "customerName")).
Proof.
  intros Hm Hecho Hn.
  rewrite params_of_metadata, Hm in Hecho. cbn [ownProps] in Hecho.
  injection Hecho as Hecho.
  destruct (normalize_inv _ _ _ _ Hn) as (s' & x & Hs & _ & _ & _ & ->).
  injection Hs as <-. rewrite <- Hecho.
  split.
  - intros k v Hk Hv. apply record_of_passthrough; [exact Hk |].
    cbn [ownProps]. apply lookup_union_Some_l. exact Hv.
  - intros Hcn Hname.
    rewrite record_of_fixed.
    + rewrite fixed_fields_lookup. cbn [String.eqb Ascii.eqb Bool.eqb].
      unfold pick at 1. cbn [ownProps]. unfold prop.
      rewrite lookup_union_r by exact Hcn. rewrite lookup_singleton_eq. reflexivity.
    + right. cbn [ownProps]. rewrite lookup_union_r by exact Hname.
      apply lookup_singleton_ne. discriminate.
Qed.

Lemma form_fields_reach_the_record_witness :
  let s : gmap string JsValue :=
    list_to_map
      [ ("metadata", obj [("customerName", JStr "Ann"); ("notes", JStr "vip");
                          ("goals", JStr "sleep")]);
        ("customer_details", obj [("email", JStr "ann@x.com")]);
        ("payment_intent", JStr "pi_1");
        ("amount_total", JNum (Num.of_Z 2999)) ] in
  exists fd,
    outcome (normalize Sample.W (JObj s)) = inr (JStr "ann@x.com", fd)
    /\ fd !! "goals" = Some (JStr "sleep")
    /\ fd !! "name" = Some (JStr "Ann").
Proof.
  intros s.
  set (fd := record_of Sample.W (prop s "metadata") (JStr "ann@x.com") (JStr "pi_1")
               (Num.of_Z 2999)).
  assert (Hn : outcome (normalize Sample.W (JObj s)) = inr (JStr "ann@x.com", fd))
    by (vm_compute; reflexivity).
  exists fd. split; [exact Hn |].
  destruct (form_fields_reach_the_record Sample.W Fixture.form_request
              Fixture.form_metadata s (JStr "ann@x.com") fd) as [H1 H2].
  - vm_compute. reflexivity.
  - vm_compute. reflexivity.
  - exact Hn.
  - split; [apply H1; [discriminate | vm_compute; reflexivity] |].
    rewrite H2 by (vm_compute; reflexivity). vm_compute. reflexivity.
Defined.

(** ** The tutorial copy against the server *)

(** X22. The two row layouts of the file differ only at the end: the
    server's thirteen-cell row is the tutorial's eight-cell row followed by
    the cells for [age], [primaryConcern], [additionalConcerns], [goals]
    and [photoCount]. *)
Theorem server_row_extends_tutorial_row (fd : gmap string JsValue) :
  row_values fd =
    (tutorial_row_values fd
     ++ ((fun k => js_or (prop fd k) (JStr ""))
           <$> ["age"; "primaryConcern"; "additionalConcerns"; "goals"; "photoCount"]))%list
  /\ tutorial_row_values fd = take 8 (row_values fd)
  /\ length (tutorial_row_values fd) = 8%nat.
Proof. repeat split. Qed.

Lemma tutorial_create_forwarded (W : World) (reqBody : JsValue) :
  requireObjectCoercible reqBody = ret tt ->
  tutorial_create_checkout_session W reqBody =
  match sessions_create W (params_of reqBody) with
  | inl e =>
      ([StripeSessionsCreate (params_of reqBody);
        ConsoleError [LStr "Error creating checkout session:"; LErr e]],
       inr (mkResponse 500 (Json (obj [("error", JStr (err_message e))]))))
  | inr session =>
      match outcome (getProp session "url") with
      | inl e =>
          ([StripeSessionsCreate (params_of reqBody);
            ConsoleError [LStr "Error creating checkout session:"; LErr e]],
           inr (mkResponse 500 (Json (obj [("error", JStr (err_message e))]))))
      | inr url =>
          ([StripeSessionsCreate (params_of reqBody)],
           inr (mkResponse 200 (Json (obj [("checkoutUrl", url)]))))
      end
  end.
Proof.
  intros Hc. unfold tutorial_create_checkout_session.
  rewrite Hc, bind_ret. fold (params_of reqBody).
  destruct (sessions_create W (params_of reqBody)) as [e | session];
    [reflexivity |].
  destruct session; reflexivity.
Qed.

(** X23. The tutorial route does not check the required fields: for
    every request with a body, whatever it contains, the provider is called
    exactly once with the parameters built from the request, and the answer
    is 200 or 500, never 400. *)
Theorem tutorial_route_does_not_validate (W : World) (reqBody : JsValue) :
  requireObjectCoercible reqBody = ret tt ->
  provider_calls (trace (tutorial_create_checkout_session W reqBody)) = 1%nat
  /\ (exists tr, trace (tutorial_create_checkout_session W reqBody) =
                 StripeSessionsCreate (params_of reqBody) :: tr)
  /\ exists response,
       outcome (tutorial_create_checkout_session W reqBody) = inr response
       /\ (status response = 200 \/ status response = 500).
Proof.
  intros Hc. rewrite (tutorial_create_forwarded W reqBody Hc).
  destruct (sessions_create W (params_of reqBody)) as [e | session].
  - split; [reflexivity |]. split; [eexists; reflexivity |].
    eexists. split; [reflexivity |]. right. reflexivity.
  - destruct (outcome (getProp session "url"));
      (split; [reflexivity |]; split; [eexists; reflexivity |];
       eexists; split; [reflexivity |]; cbn; tauto).
Qed.

Lemma tutorial_route_does_not_validate_witness :
  provider_calls
    (trace (tutorial_create_checkout_session Sample.W Sample.order_without_email))
  = 1%nat
  /\ provider_calls (trace (create_checkout_session Sample.W Sample.order_without_email))
     = 0%nat.
Proof.
  destruct (tutorial_route_does_not_validate Sample.W Sample.order_without_email)
    as (H & _).
  - reflexivity.
  - split; [exact H | vm_compute; reflexivity].
Defined.

(** X24. On a request whose three required fields are truthy the two
    routes give the same response, provided the provider fails or returns
    a session that is neither [undefined] nor [null]. *)
Theorem routes_agree_on_valid_requests (W : World) (reqBody : JsValue) :
  truthy (pick reqBody "productName") = true ->
  truthy (pick reqBody "productPrice") = true ->
  truthy (pick reqBody "customerEmail") = true ->
  (forall session, sessions_create W (params_of reqBody) = inr session ->
                   nullish session = false) ->
  outcome (tutorial_create_checkout_session W reqBody) =
  outcome (create_checkout_session W reqBody).
Proof.
  intros Hn Hp He Hsess.
  rewrite (create_forwarded W reqBody Hn Hp He). cbv zeta.
  rewrite (tutorial_create_forwarded W reqBody (truthy_pick_coercible _ _ Hn)).
  destruct (sessions_create W (params_of reqBody)) as [e | session];
    [reflexivity |].
  specialize (Hsess session eq_refl).
  destruct session; first [discriminate Hsess | reflexivity].
Qed.

Lemma routes_agree_on_valid_requests_witness :
  outcome (tutorial_create_checkout_session Sample.W Sample.paid_order) =
  outcome (create_checkout_session Sample.W Sample.paid_order).
Proof.
  apply (routes_agree_on_valid_requests Sample.W Sample.paid_order);
    try reflexivity.
  intros session [= <-]. reflexivity.
Defined.

(** ** Whole amounts *)

Section WholeAmounts.

Local Open Scope Z_scope.

(** X25. An amount that is a whole number of major units is stored as
    that integer: for [0 <= k] with [100 * k < 2^53], the binary64
    quotient of [100 * k] by 100 is the number [k] itself. *)
Theorem whole_amounts_divide_exactly (k : Z) :
  0 <= k -> 100 * k < 2 ^ 53 ->
  Num.div (Num.of_Z (100 * k)) (Num.of_Z 100) = Num.of_Z k.
Proof.
  intros Hk Hlt. destruct (Z.eq_dec k 0) as [-> | Hne]; [reflexivity |].
  destruct (div_100_rounded (100 * k) ltac:(lia)) as (m & e & -> & Hm & He & Hab).
  destruct (of_Z_normal k ltac:(lia)) as (m' & -> & Hm' & Hb').
  assert (Hpow : 0 < 2 ^ (- e)) by (apply Z.pow_pos_nonneg; lia).
  assert (Hmk : Zpos m = k * 2 ^ (- e)).
  { replace (100 * k * 2 ^ (- e)) with (100 * (k * 2 ^ (- e))) in Hab by ring.
    generalize dependent (k * 2 ^ (- e)). intros kp Hab.
    clear - Hab. apply Z.abs_le in Hab. lia. }
  assert (He52 : - e < 53).
  { apply (Z.pow_lt_mono_r_iff 2); [lia | lia | nia]. }
  assert (Hlog : Z.log2 k = 52 + e).
  { apply Z.log2_unique; [lia |].
    assert (H2 : 2 ^ 52 = 2 ^ (52 + e) * 2 ^ (- e))
      by (rewrite <- Z.pow_add_r by lia; f_equal; lia).
    assert (H3 : 2 ^ 53 = 2 ^ Z.succ (52 + e) * 2 ^ (- e))
      by (rewrite <- Z.pow_add_r by lia; f_equal; lia).
    assert (0 < 2 ^ (52 + e)) by (apply Z.pow_pos_nonneg; lia).
    assert (0 < 2 ^ Z.succ (52 + e)) by (apply Z.pow_pos_nonneg; lia).
    split; nia. }
  rewrite Hlog in *.
  replace (52 - (52 + e)) with (- e) in Hm' by lia.
  f_equal; [| lia].
  apply Pos2Z.inj. lia.
Qed.

Lemma whole_amounts_divide_exactly_witness :
  Num.div (Num.of_Z 5000) (Num.of_Z 100) = Num.of_Z 50.
Proof. apply (whole_amounts_divide_exactly 50); lia. Defined.

End WholeAmounts.
